(** * simpleauthservice: the authentication handlers and the user model

    A shallow embedding of [handlers/authenticationHandler.js] and
    [models/user.js].  Mongoose collections are lists whose index is the
    document's [_id]; a handler is a function from the database to an
    [Outcome]: the database it leaves, the responses it sent on [reply] (in
    order), the mails it handed to the mailer, and how it completed.

    Requests are served one at a time: a handler runs to its end before the
    next starts, and every [Date.now()] of one request reads the same clock
    value.  Schema validation of documents is left out: the handlers only
    store strings the route schema has accepted and bcrypt hashes. *)

From Stdlib Require Import ZArith String Ascii List Bool Lia.
From stdpp Require Import base option list.
Import ListNotations.

Local Open Scope string_scope.
Local Open Scope Z_scope.

(** ** External libraries: bcryptjs and Node's crypto *)

(** [bcrypt.hash(passwd, salt)], [bcrypt.compare(entered, stored)] and
    [crypto.createHash("sha256").update(x).digest("hex")]. *)
Class Crypto := {
  bcrypt_hash : string -> string -> string;
  bcrypt_compare : string -> string -> bool;
  sha256_hex : string -> string;
}.

(** The key bcryptjs hands to its cipher: the bytes of the password followed
    by a NUL, of which the cipher reads at most the first 72. *)
Definition bcrypt_key (passwd : string) : string :=
  substring 0 72 (String.append passwd (String Ascii.zero EmptyString)).

(** bcryptjs around its cipher [eks] (key and salt to digest): a hash is the
    29-character salt followed by the digest, and [compare] hashes the
    entered password again under the salt it reads off the stored hash. *)
Definition bcryptjs (eks : string -> string -> string) (sha : string -> string) : Crypto := {|
  bcrypt_hash passwd s := String.append s (eks (bcrypt_key passwd) s);
  bcrypt_compare entered stored :=
    let s := substring 0 29 stored in
    String.eqb (String.append s (eks (bcrypt_key entered) s)) stored;
  sha256_hex := sha;
|}.

(** The operating system's random source, read front to back. *)
Definition Rng := nat -> Byte.byte.

(** [crypto.randomBytes(n)]: the next [n] bytes, and the source advanced. *)
Definition randomBytes (n : nat) (rng : Rng) : list Byte.byte * Rng :=
  (map rng (seq 0 n), fun i => rng (n + i)%nat).

Definition hexDigit (n : N) : ascii :=
  match n with
  | 0%N => "0" | 1%N => "1" | 2%N => "2" | 3%N => "3"
  | 4%N => "4" | 5%N => "5" | 6%N => "6" | 7%N => "7"
  | 8%N => "8" | 9%N => "9" | 10%N => "a" | 11%N => "b"
  | 12%N => "c" | 13%N => "d" | 14%N => "e" | _ => "f"
  end%char.

(** [buf.toString("hex")]: two lower-case digits per byte. *)
Fixpoint toHex (buf : list Byte.byte) : string :=
  match buf with
  | [] => EmptyString
  | b :: rest =>
      String (hexDigit (N.div (Byte.to_N b) 16))
        (String (hexDigit (N.modulo (Byte.to_N b) 16)) (toHex rest))
  end.

Definition unhexDigit (c : ascii) : option N :=
  let n := N_of_ascii c in
  if (48 <=? n)%N && (n <=? 57)%N then Some (n - 48)%N
  else if (97 <=? n)%N && (n <=? 102)%N then Some (n - 87)%N
  else None.

(** The inverse of [toHex], used to show that no two buffers share a
    rendering. *)
Fixpoint fromHex (s : string) : option (list Byte.byte) :=
  match s with
  | EmptyString => Some []
  | String hi (String lo rest) =>
      match unhexDigit hi, unhexDigit lo, fromHex rest with
      | Some h, Some l, Some bs =>
          match Byte.of_N (h * 16 + l) with
          | Some b => Some (b :: bs)
          | None => None
          end
      | _, _, _ => None
      end
  | String _ EmptyString => None
  end.

(** ** Data model *)

(** [role: { enum: ["user", "admin"], default: "user" }] *)
Inductive Role := RoleUser | RoleAdmin.

(** [userSchema]; a path that may be [undefined] is an [option]. *)
Record User := mkUser {
  name : string;
  uid : string;
  email : string;
  provider : string;
  password : option string;
  role : Role;
  isEmailConfirmed : bool;
  pwResetToken : option string;
  pwResetExpire : option Z;
  confirmEmailToken : option string;
  confirmEmailTokenExpire : option Z;
  isDeactivated : bool;
  createdAt : Z;
  deactivatedAt : option Z;
}.

(** Modelled from the spec: the RefreshTokenRecord of section 3
    ([models/refreshToken.js] is not among the sources): owning account id,
    issuedAt, expiresAt, revoked flag, revokedAt, issuing and revoking IP.
    The record's id is its index in the collection. *)
Record RefreshToken := mkRefreshToken {
  user : nat;
  issuedAt : Z;
  expiresAt : Z;
  revoked : bool;
  revokedAt : option Z;
  issuedByIp : string;
  revokedByIp : option string;
}.

Record Db := mkDb {
  users : list User;
  refreshTokens : list RefreshToken;
}.

(** The payload [jwt.sign] signs in [getJWT], with the expiry it adds. *)
Record Jwt := mkJwt {
  jwt_id : nat;
  jwt_role : Role;
  jwt_name : string;
  jwt_uid : string;
  jwt_isEmailConfirmed : bool;
  jwt_isDeactivated : bool;
  jwt_iat : Z;
  jwt_exp : Z;
}.

(** Process-wide configuration ([configs.js] is not among the sources):
    taken as parameters. *)
Record Configs := mkConfigs {
  CHECK_ADMIN : bool;
  REFRESH_TOKEN_TTL : Z;
}.

Record EmailStatus := mkEmailStatus {
  es_success : bool;
  es_message : string;
}.

(** What one request sees of the world outside the database. *)
Record Env := mkEnv {
  now : Z;
  rng : Rng;
  salt : string;
  emailStatus : EmailStatus;
}.

Record Body := mkBody {
  b_name : string;
  b_email : string;
  b_password : string;
  b_confirmPassword : string;
  b_currentPassword : string;
}.

(** The fields of [request] the handlers read.  [req_user] is the decoded
    access token set by [verifyAuth]; [userModel] is the document attached by
    [attachUser], with its [_id]. *)
Record Request := mkRequest {
  body : Body;
  ipAddress : string;
  rtid : nat;
  req_user : Jwt;
  userModel : nat * User;
}.

(** ** Replies *)

Inductive CookieOp :=
| CookieKeep
| CookieSet (refreshToken : nat)
| CookieClear.

Record Response := mkResponse {
  isError : bool;
  statusCode : Z;
  message : string;
  token : option Jwt;
  emailSuccess : option bool;
  emailMessage : option string;
  cookie : CookieOp;
}.

Inductive MailKind := ConfirmationMail | PasswordResetMail | PasswordChangedMail | NewLoginMail.

Record Mail := mkMail {
  mail_kind : MailKind;
  mail_to : string;
  mail_token : option string;
}.

(** [Threw]: a [TypeError] or a rejected library call escaped the handler
    (the framework then answers for it, if nothing was sent yet). *)
Inductive Completion := Returned | Threw.

Record Outcome := mkOutcome {
  out_db : Db;
  out_sent : list Response;
  out_mails : list Mail;
  out_completion : Completion;
}.

(** Modelled from the spec: [sendErrorResponse] and [sendSuccessResponse] of
    [utils/responseHelpers.js] (not among the sources): each sends one
    response on [reply] carrying the arguments it was called with. *)
Definition sendErrorResponse (reply : list Response) (code : Z) (msg : string)
    (clearCookie : bool) : list Response :=
  reply ++ [ mkResponse true code msg None None None
               (if clearCookie then CookieClear else CookieKeep) ].

Definition sendSuccessResponse (reply : list Response) (code : Z) (msg : string)
    (tok : option Jwt) (es : option EmailStatus) (ck : CookieOp) : list Response :=
  reply ++ [ mkResponse false code msg tok
               (es_success <$> es) (es_message <$> es) ck ].

(** ** Mongoose queries on the two collections *)

(** [User.findOne({ email })] *)
Definition User_findOne (db : Db) (e : string) : option User :=
  find (fun u => String.eqb (email u) e) (users db).

(** [User.countDocuments()] *)
Definition User_countDocuments (db : Db) : nat := length (users db).

(** [User.findById(id)] *)
Definition User_findById (db : Db) (id : nat) : option User := users db !! id.

(** The schema declares [uid] and [email] [unique: true]: an insert that
    repeats either is rejected by the index. *)
Definition duplicate_key (db : Db) (ud em : string) : bool :=
  existsb (fun d => String.eqb (uid d) ud || String.eqb (email d) em) (users db).

(** [User.create({ name, uid, email, password, role, provider })]: the schema
    defaults fill the other paths, and the new document gets the next id;
    [None] when the unique indexes reject the insert. *)
Definition User_create (db : Db) (t : Z) (nm ud em pw : string) (rl : Role)
    (pv : string) : option (nat * User * Db) :=
  if duplicate_key db ud em then None
  else
    let doc := mkUser nm ud em pv (Some pw) rl false None None None None false t None in
    Some (length (users db), doc, mkDb (users db ++ [doc]) (refreshTokens db)).

(** [user.save()] of the document with the given id.  A document whose id
    is not in the collection is not written: the statements about a save
    take the document from the collection. *)
Definition User_save (db : Db) (id : nat) (u : User) : Db :=
  mkDb (<[id := u]> (users db)) (refreshTokens db).

(** ** models/user.js *)

Definition set_password (pw : string) (u : User) : User :=
  mkUser (name u) (uid u) (email u) (provider u) (Some pw) (role u)
    (isEmailConfirmed u) (pwResetToken u) (pwResetExpire u)
    (confirmEmailToken u) (confirmEmailTokenExpire u)
    (isDeactivated u) (createdAt u) (deactivatedAt u).

Definition set_pwReset (tok : option string) (exp : option Z) (u : User) : User :=
  mkUser (name u) (uid u) (email u) (provider u) (password u) (role u)
    (isEmailConfirmed u) tok exp
    (confirmEmailToken u) (confirmEmailTokenExpire u)
    (isDeactivated u) (createdAt u) (deactivatedAt u).

Definition set_confirmEmail (tok : option string) (exp : option Z) (u : User) : User :=
  mkUser (name u) (uid u) (email u) (provider u) (password u) (role u)
    (isEmailConfirmed u) (pwResetToken u) (pwResetExpire u)
    tok exp
    (isDeactivated u) (createdAt u) (deactivatedAt u).

Definition set_isEmailConfirmed (b : bool) (u : User) : User :=
  mkUser (name u) (uid u) (email u) (provider u) (password u) (role u)
    b (pwResetToken u) (pwResetExpire u)
    (confirmEmailToken u) (confirmEmailTokenExpire u)
    (isDeactivated u) (createdAt u) (deactivatedAt u).

Definition set_deactivated (t : Z) (u : User) : User :=
  mkUser (name u) (uid u) (email u) (provider u) (password u) (role u)
    (isEmailConfirmed u) (pwResetToken u) (pwResetExpire u)
    (confirmEmailToken u) (confirmEmailTokenExpire u)
    true (createdAt u) (Some t).

(** [getJWT]: [expiresIn: "15m"], counted in seconds from the issue time. *)
Definition getJWT (t : Z) (id : nat) (u : User) : Jwt :=
  mkJwt id (role u) (name u) (uid u) (isEmailConfirmed u) (isDeactivated u)
    (t / 1000) (t / 1000 + 15 * 60).

Section WithCrypto.
Context `{C : Crypto}.

(** [matchPasswd]: [bcrypt.compare] rejects when the stored hash is
    [undefined]; [None] is that rejection. *)
Definition matchPasswd (u : User) (enteredPasswd : string) : option bool :=
  match password u with
  | Some h => Some (bcrypt_compare enteredPasswd h)
  | None => None
  end.

(** [hashPasswd]: [genSalt(10)] draws the salt from the environment. *)
Definition hashPasswd (env : Env) (passwd : string) : string :=
  bcrypt_hash passwd (salt env).

(** [getPwResetToken]: returns the raw token, the document with the digest
    and the expiry set, and the random source advanced. *)
Definition getPwResetToken (t : Z) (r : Rng) (u : User) : string * User * Rng :=
  let '(bytes, r') := randomBytes 50 r in
  let resetToken := toHex bytes in
  (resetToken,
   set_pwReset (Some (sha256_hex resetToken)) (Some (t + 30 * 60 * 1000)) u,
   r').

Definition isPwResetTokenExpired (t : Z) (u : User) : bool :=
  match pwResetExpire u with
  | None => true
  | Some e => e <=? t
  end.

Definition getEmailConfirmationToken (t : Z) (r : Rng) (u : User) : string * User * Rng :=
  let '(bytes, r') := randomBytes 30 r in
  let confirmationToken := toHex bytes in
  (confirmationToken,
   set_confirmEmail (Some (sha256_hex confirmationToken)) (Some (t + 60 * 60 * 1000)) u,
   r').

Definition isConfirmEmailTokenExpired (t : Z) (u : User) : bool :=
  match confirmEmailTokenExpire u with
  | None => true
  | Some e => e <=? t
  end.

(** ** models/refreshToken.js *)

(** Modelled from the spec: [getRftById] ([models/refreshToken.js] is not
    among the sources): "fetch by id", [None] when there is no such record.
    Both handlers call it without [await] and use the result as the record. *)
Definition getRftById (db : Db) (id : nat) : option RefreshToken :=
  refreshTokens db !! id.

(** Modelled from the spec: [rft.isExpired()] (same missing file): "a record
    is usable only while revoked=false AND now < expiresAt". *)
Definition isExpired (t : Z) (r : RefreshToken) : bool :=
  revoked r || (expiresAt r <=? t).

(** Modelled from the spec: [rft.revoke(ip)] (same missing file): "marks
    Active->Revoked", recording when and from where. *)
Definition revoke (t : Z) (ip : option string) (r : RefreshToken) : RefreshToken :=
  mkRefreshToken (user r) (issuedAt r) (expiresAt r) true (Some t)
    (issuedByIp r) ip.

(** [rft.save()] of the record with the given id. *)
Definition RefreshToken_save (db : Db) (id : nat) (r : RefreshToken) : Db :=
  mkDb (users db) (<[id := r]> (refreshTokens db)).

(** Modelled from the spec: [getRefreshToken(user, ip)] (same missing file):
    "creates a new Active record, fixed TTL, returns its id as the
    caller-facing token". *)
Definition getRefreshToken (cfg : Configs) (t : Z) (owner : nat) (ip : string)
    (db : Db) : nat * Db :=
  let doc := mkRefreshToken owner t (t + REFRESH_TOKEN_TTL cfg) false None ip None in
  (length (refreshTokens db), mkDb (users db) (refreshTokens db ++ [doc])).

(** Modelled from the spec: [revokeAllRfTokenByUser(user, ip)] (same missing
    file): "marks every Active record owned by the account as Revoked". *)
Definition revokeAllRfTokenByUser (t : Z) (owner : nat) (ip : option string)
    (db : Db) : Db :=
  mkDb (users db)
    (map (fun r => if Nat.eqb (user r) owner && negb (isExpired t r)
                   then revoke t ip r else r)
         (refreshTokens db)).

(** ** handlers/authenticationHandler.js *)

Definition returned (db : Db) (sent : list Response) (mails : list Mail) : Outcome :=
  mkOutcome db sent mails Returned.

Definition threw (db : Db) (sent : list Response) (mails : list Mail) : Outcome :=
  mkOutcome db sent mails Threw.

(** POST /signup *)
Definition registerUser (cfg : Configs) (env : Env) (request : Request)
    (db : Db) : Outcome :=
  let nm := b_name (body request) in
  let em := b_email (body request) in
  let pw := b_password (body request) in
  match User_findOne db em with
  | Some _ =>
      returned db (sendErrorResponse [] 400 "Duplicate field value entered" false) []
  | None =>
      let pv := "email" in
      let pw := hashPasswd env pw in
      let rl := RoleUser in
      let rl :=
        if CHECK_ADMIN cfg
        then (if Nat.eqb (User_countDocuments db) 0 then RoleAdmin else rl)
        else rl in
      let '(uidBytes, rng1) := randomBytes 15 (rng env) in
      match User_create db (now env) nm (toHex uidBytes) em pw rl pv with
      | None => threw db [] []
      | Some (id, doc, db1) =>
          let '(confirmationToken, doc1, _) :=
            getEmailConfirmationToken (now env) rng1 doc in
          let db2 := User_save db1 id doc1 in
          let '(refreshToken, db3) :=
            getRefreshToken cfg (now env) id (ipAddress request) db2 in
          returned db3
            (sendSuccessResponse [] 201 "Sign up successful"
               (Some (getJWT (now env) id doc1)) (Some (emailStatus env))
               (CookieSet refreshToken))
            [mkMail ConfirmationMail (email doc1) (Some confirmationToken)]
      end
  end.

(** POST /signin *)
Definition signin (cfg : Configs) (env : Env) (request : Request) (db : Db) : Outcome :=
  let pw := b_password (body request) in
  let '(id, doc) := userModel request in
  match matchPasswd doc pw with
  | None => threw db [] []
  | Some true =>
      let '(refreshToken, db1) := getRefreshToken cfg (now env) id (ipAddress request) db in
      returned db1
        (sendSuccessResponse [] 200 "Signed in"
           (Some (getJWT (now env) id doc)) (Some (emailStatus env))
           (CookieSet refreshToken))
        [mkMail NewLoginMail (email doc) None]
  | Some false =>
      returned db (sendErrorResponse [] 400 "Password Does not match" false) []
  end.

(** PUT /confirmEmail *)
Definition confirmEmail (env : Env) (request : Request) (db : Db) : Outcome :=
  let '(id, doc) := userModel request in
  let doc := set_confirmEmail None None doc in
  let doc := set_isEmailConfirmed true doc in
  returned (User_save db id doc)
    (sendSuccessResponse [] 200 "Account successfully confirmed" None None CookieKeep)
    [].

Definition confirmationRecentlySent : string :=
  "Confirmation email was recently sent to your email. Check Spam/Promotions folder.			 Please request again after some time.".

(** POST /confirmEmail *)
Definition requestConfirmationEmail (env : Env) (request : Request) (db : Db) : Outcome :=
  let '(id, doc) := userModel request in
  if isEmailConfirmed doc
  then returned db (sendErrorResponse [] 400 "Email already confirmed" false) []
  else if negb (isConfirmEmailTokenExpired (now env) doc)
  then returned db (sendErrorResponse [] 400 confirmationRecentlySent false) []
  else
    let '(confirmationToken, doc1, _) := getEmailConfirmationToken (now env) (rng env) doc in
    let db1 := User_save db id doc1 in
    let mails := [mkMail ConfirmationMail (email doc1) (Some confirmationToken)] in
    if negb (es_success (emailStatus env))
    then returned db1 (sendErrorResponse [] 500 (es_message (emailStatus env)) false) mails
    else returned db1
           (sendSuccessResponse [] 200 (es_message (emailStatus env)) None
              (Some (emailStatus env)) CookieKeep)
           mails.

(** POST /resetPassword *)
Definition requestResetPasswordToken (env : Env) (request : Request) (db : Db) : Outcome :=
  let '(id, doc) := userModel request in
  if negb (isPwResetTokenExpired (now env) doc)
  then returned db
         (sendErrorResponse [] 400 "Please check your email, try again later" false) []
  else
    let '(pwResetToken, doc1, _) := getPwResetToken (now env) (rng env) doc in
    let db1 := User_save db id doc1 in
    let mails := [mkMail PasswordResetMail (email doc1) (Some pwResetToken)] in
    if negb (es_success (emailStatus env))
    then returned db1 (sendErrorResponse [] 500 (es_message (emailStatus env)) false) mails
    else returned db1
           (sendSuccessResponse [] 200 (es_message (emailStatus env)) None
              (Some (emailStatus env)) CookieKeep)
           mails.

(** PUT /resetPassword *)
Definition resetPasswordFromToken (env : Env) (request : Request) (db : Db) : Outcome :=
  let '(id, doc) := userModel request in
  let pw := b_password (body request) in
  let confirmPassword := b_confirmPassword (body request) in
  if negb (String.eqb pw confirmPassword)
  then returned db
         (sendErrorResponse [] 400 "Password and confirmed password are different" false) []
  else
    let db1 := revokeAllRfTokenByUser (now env) id (Some (ipAddress request)) db in
    let pw := hashPasswd env pw in
    let doc := set_password pw doc in
    let doc := set_pwReset None None doc in
    let db2 := User_save db1 id doc in
    returned db2
      (sendSuccessResponse [] 200 "Password Updated" None (Some (emailStatus env)) CookieKeep)
      [mkMail PasswordChangedMail (email doc) None].

(** PUT /updatePassword *)
Definition updatePassword (env : Env) (request : Request) (db : Db) : Outcome :=
  let '(id, doc) := userModel request in
  let pw := b_password (body request) in
  let confirmPassword := b_confirmPassword (body request) in
  match matchPasswd doc (b_currentPassword (body request)) with
  | None => threw db [] []
  | Some checkPassword =>
      if negb checkPassword
      then returned db (sendErrorResponse [] 400 "Your entered the wrong password" false) []
      else if negb (String.eqb pw confirmPassword)
      then returned db
             (sendErrorResponse [] 400 "Password and confirmed password are different" false) []
      else
        let db1 := revokeAllRfTokenByUser (now env) id (Some (ipAddress request)) db in
        let doc := set_password (hashPasswd env pw) doc in
        let db2 := User_save db1 id doc in
        returned db2
          (sendSuccessResponse [] 200 "Password Updated" None (Some (emailStatus env)) CookieKeep)
          [mkMail PasswordChangedMail (email doc) None]
  end.

(** DELETE /account *)
Definition deleteAccount (env : Env) (request : Request) (db : Db) : Outcome :=
  let '(id, doc) := userModel request in
  match matchPasswd doc (b_password (body request)) with
  | None => threw db [] []
  | Some checkPassword =>
      if negb checkPassword
      then returned db
             (sendErrorResponse [] 400
                "We could not delete your account.Your entered the wrong password" false) []
      else
        let db1 := revokeAllRfTokenByUser (now env) id (Some (ipAddress request)) db in
        let doc := set_deactivated (now env) doc in
        let db2 := User_save db1 id doc in
        returned db2
          (sendSuccessResponse [] 200
             "Account deactivated. Your account will be deleted from the database after 10 days"
             None None CookieKeep)
          []
  end.

(** POST /refresh *)
Definition getJWTFromRefresh (cfg : Configs) (env : Env) (request : Request)
    (db : Db) : Outcome :=
  match getRftById db (rtid request) with
  | None => returned db (sendErrorResponse [] 400 "Invalid Refresh Token" false) []
  | Some rft =>
      if isExpired (now env) rft
      then returned db (sendErrorResponse [] 400 "Refresh Token Expired" false) []
      else
        match User_findById db (user rft) with
        | None => returned db (sendErrorResponse [] 400 "Invalid Refresh Token" false) []
        | Some doc =>
            let jwtToken := getJWT (now env) (user rft) doc in
            let rft1 := revoke (now env) (Some (ipAddress request)) rft in
            let db1 := RefreshToken_save db (rtid request) rft1 in
            let '(newRefreshToken, db2) :=
              getRefreshToken cfg (now env) (user rft) (ipAddress request) db1 in
            returned db2
              (sendSuccessResponse [] 200 "Refresh token : successful"
                 (Some jwtToken) None (CookieSet newRefreshToken))
              []
        end
  end.

(** The closure [sendInvalidToken] of [revokeRefreshToken]. *)
Definition sendInvalidToken (reply : list Response) : list Response :=
  sendErrorResponse reply 400 "Invalid Refresh Token" true.

(** PUT /refresh/revoke.  The three [sendInvalidToken()] calls are statements,
    not returns: the handler goes on after each, and reading [rft.user] or
    [user.uid] of [null] throws. *)
Definition revokeRefreshToken (env : Env) (request : Request) (db : Db) : Outcome :=
  let reply := [] in
  match getRftById db (rtid request) with
  | None =>
      let reply := sendInvalidToken reply in
      threw db reply []
  | Some rft =>
      match User_findById db (user rft) with
      | None =>
          let reply := sendInvalidToken reply in
          threw db reply []
      | Some doc =>
          let reply :=
            if negb (String.eqb (uid doc) (jwt_uid (req_user request)))
            then sendInvalidToken reply
            else reply in
          if isExpired (now env) rft
          then returned db (sendErrorResponse reply 400 "Refresh Token Expired" true) []
          else
            let rft1 := revoke (now env) (Some (ipAddress request)) rft in
            let db1 := RefreshToken_save db (rtid request) rft1 in
            returned db1
              (sendSuccessResponse reply 200 "Refresh token successfully revoked"
                 None None CookieClear)
              []
      end
  end.

(** PUT /revokeAll: [revokeAllRfTokenByUser(user)], the address left out. *)
Definition revokeAllRefreshTokens (env : Env) (request : Request) (db : Db) : Outcome :=
  let '(id, doc) := userModel request in
  let db1 := revokeAllRfTokenByUser (now env) id None db in
  returned db1
    (sendSuccessResponse [] 200 "Successfully revoked all tokens" None None CookieKeep)
    [].

(** The reply of GET /account. *)
Record AccountInfo := mkAccountInfo {
  ai_statusCode : Z;
  ai_message : string;
  ai_name : string;
  ai_email : string;
  ai_role : Role;
  ai_isEmailConfirmed : bool;
  ai_isDeactivated : bool;
}.

(** GET /account: the name, role and flags are those of the decoded access
    token [request.user]; only the email is read from the attached
    document. *)
Definition getAccount (request : Request) : AccountInfo :=
  let user := req_user request in
  mkAccountInfo 200 "User Found" (jwt_name user) (email (snd (userModel request)))
    (jwt_role user) (jwt_isEmailConfirmed user) (jwt_isDeactivated user).

(** ** The service as a transition system *)

(** The routes of [routes/authentication.js] whose handlers write to the
    database (the two redirects and GET /account only read). *)
Inductive Route :=
| PostSignup | PostSignin | PutConfirmEmail | PostConfirmEmail
| PostResetPassword | PutResetPassword | PutUpdatePassword | DeleteAccount
| PostRefresh | PutRefreshRevoke | PutRevokeAll.

Definition handle (cfg : Configs) (rt : Route) (env : Env) (request : Request)
    (db : Db) : Outcome :=
  match rt with
  | PostSignup => registerUser cfg env request db
  | PostSignin => signin cfg env request db
  | PutConfirmEmail => confirmEmail env request db
  | PostConfirmEmail => requestConfirmationEmail env request db
  | PostResetPassword => requestResetPasswordToken env request db
  | PutResetPassword => resetPasswordFromToken env request db
  | PutUpdatePassword => updatePassword env request db
  | DeleteAccount => deleteAccount env request db
  | PostRefresh => getJWTFromRefresh cfg env request db
  | PutRefreshRevoke => revokeRefreshToken env request db
  | PutRevokeAll => revokeAllRefreshTokens env request db
  end.

(** One request served. *)
Definition step (cfg : Configs) (db db' : Db) : Prop :=
  exists rt env request, out_db (handle cfg rt env request db) = db'.

(** Any number of requests served, one after the other. *)
Inductive steps (cfg : Configs) : Db -> Db -> Prop :=
| steps_refl db : steps cfg db db
| steps_cons db db' db'' : step cfg db db' -> steps cfg db' db'' -> steps cfg db db''.

End WithCrypto.

(** ** A reference instance and fixtures *)

(** A stand-in hasher and digest; the handlers are run on concrete requests
    with it. *)
Definition refCrypto : Crypto := {|
  bcrypt_hash p s := String.append "$2a$10$" p;
  bcrypt_compare q h := String.eqb (String.append "$2a$10$" q) h;
  sha256_hex x := String.append "sha256:" x;
|}.

Definition cfg0 : Configs := mkConfigs true (30 * 24 * 60 * 60 * 1000).

Definition rng0 : Rng := fun i =>
  match Byte.of_N (N.of_nat i mod 256) with Some b => b | None => Byte.x00 end.

Definition env_at (t : Z) : Env := mkEnv t rng0 "salt" (mkEmailStatus true "Email sent").

(** The same clock and mailer further along the random source. *)
Definition later_env (t : Z) : Env :=
  mkEnv t (fun i => rng0 (100 + i)%nat) "salt" (mkEmailStatus true "Email sent").

Definition alice : User :=
  mkUser "A" "a1" "a@x.com" "email" (Some "$2a$10$pw123456") RoleAdmin true
    None None None None false 0 None.

Definition bob : User :=
  mkUser "B" "b2" "b@x.com" "email" (Some "$2a$10$pw654321") RoleUser true
    None None None None false 0 None.

Definition claims_of (id : nat) (u : User) : Jwt := getJWT 0 id u.

Definition req0 : Request :=
  mkRequest (mkBody "" "" "" "" "") "10.0.0.1" 0 (claims_of 0 alice) (0%nat, alice).

Definition with_body (b : Body) (r : Request) : Request :=
  mkRequest b (ipAddress r) (rtid r) (req_user r) (userModel r).

Definition with_rtid (i : nat) (r : Request) : Request :=
  mkRequest (body r) (ipAddress r) i (req_user r) (userModel r).

Definition with_user (j : Jwt) (r : Request) : Request :=
  mkRequest (body r) (ipAddress r) (rtid r) j (userModel r).

Definition with_userModel (id : nat) (u : User) (r : Request) : Request :=
  mkRequest (body r) (ipAddress r) (rtid r) (req_user r) (id, u).

(** Alice and Bob, and one Active refresh token of Alice's that expires at
    time 1000. *)
Definition db0 : Db :=
  mkDb [alice; bob] [mkRefreshToken 0 0 1000 false None "10.0.0.1" None].

(** Carol signed up through another provider: no password, nothing issued. *)
Definition carol : User :=
  mkUser "C" "c3" "c@x.com" "google" None RoleUser false
    None None None None false 0 None.

Definition signup_A : Request :=
  with_body (mkBody "A" "a@x.com" "pw123456" "" "") req0.

Definition signup_B : Request :=
  with_body (mkBody "B" "b@x.com" "pw123456" "" "") req0.

Definition emptyDb : Db := mkDb [] [].

(** Bob, signed in, presents Alice's refresh token (id 0). *)
Definition bob_revokes_alice : Request := with_user (claims_of 1 bob) req0.

(** [db0] after Alice's token was revoked at time 3. *)
Definition db0_revoked : Db :=
  mkDb [alice; bob]
    [mkRefreshToken 0 0 1000 true (Some 3) "10.0.0.1" (Some "10.0.0.1")].

Definition reset_request : Request :=
  with_body (mkBody "" "" "newpw1234" "newpw1234" "") req0.

Definition signin_wrong : Request :=
  with_body (mkBody "" "a@x.com" "pw123457" "" "") req0.

(** The clock at [t] with the mailer failing. *)
Definition env_mail_down (t : Z) : Env :=
  mkEnv t rng0 "salt" (mkEmailStatus false "Email could not be sent").

Definition update_request : Request :=
  with_body (mkBody "" "" "newpw1234" "newpw1234" "pw123456") req0.

Definition delete_request : Request :=
  with_body (mkBody "" "" "pw123456" "" "") req0.

(** Alice with a reset token issued at time 0 still on file. *)
Definition alice_pending : User :=
  set_pwReset (Some "sha256:00") (Some (0 + 30 * 60 * 1000)) alice.

Definition db_pending : Db :=
  mkDb [alice_pending; bob] [mkRefreshToken 0 0 1000 false None "10.0.0.1" None].

(** The system after A signed up into the empty system at time 0. *)
Definition registered_A : Db :=
  out_db (registerUser (C := refCrypto) cfg0 (env_at 0) signup_A emptyDb).

Definition docA : User :=
  match users registered_A !! 0%nat with Some d => d | None => alice end.

Definition jwtA : Jwt := getJWT 0 0 docA.

(** A stand-in cipher, and bcryptjs around it. *)
Definition refEks (key s : string) : string := String.append key s.

Definition refBcryptjs : Crypto := bcryptjs refEks (fun x => String.append "sha256:" x).

(** The clock at [t] with a salt as [genSalt(10)] makes them: 29 characters. *)
Definition env_bcrypt (t : Z) : Env :=
  mkEnv t rng0 "$2a$10$abcdefghijklmnopqrstuu" (mkEmailStatus true "Email sent").

(** Two passwords of 73 characters with the same first 72. *)
Definition pw72 : string := string_of_list_ascii (repeat "a"%char 72).

Definition long_A : string := String.append pw72 "x".

Definition long_B : string := String.append pw72 "y".

Definition signup_long : Request :=
  with_body (mkBody "L" "l@x.com" long_A "" "") req0.

Definition signin_long : Request :=
  with_body (mkBody "" "l@x.com" long_B "" "") req0.

(** The account [db0]'s Alice, Bob and Carol, no refresh token. *)
Definition db_with_carol : Db := mkDb [alice; bob; carol] [].

(** ** Predicates the statements use *)

(** [u'] is [u] except for the password-reset digest and expiry. *)
Definition differ_only_in_pwReset (u u' : User) : Prop :=
  name u' = name u /\ uid u' = uid u /\ email u' = email u /\
  provider u' = provider u /\ password u' = password u /\ role u' = role u /\
  isEmailConfirmed u' = isEmailConfirmed u /\
  confirmEmailToken u' = confirmEmailToken u /\
  confirmEmailTokenExpire u' = confirmEmailTokenExpire u /\
  isDeactivated u' = isDeactivated u /\ createdAt u' = createdAt u /\
  deactivatedAt u' = deactivatedAt u.

(** [u'] is [u] except for the confirmation digest and expiry. *)
Definition differ_only_in_confirmEmail (u u' : User) : Prop :=
  name u' = name u /\ uid u' = uid u /\ email u' = email u /\
  provider u' = provider u /\ password u' = password u /\ role u' = role u /\
  isEmailConfirmed u' = isEmailConfirmed u /\
  pwResetToken u' = pwResetToken u /\ pwResetExpire u' = pwResetExpire u /\
  isDeactivated u' = isDeactivated u /\ createdAt u' = createdAt u /\
  deactivatedAt u' = deactivatedAt u.

(** [bytes] are the next [n] bytes of the random source [r]. *)
Definition drawn_from (r : Rng) (n : nat) (bytes : list Byte.byte) : Prop :=
  length bytes = n /\ forall i, (i < n)%nat -> bytes !! i = Some (r i).

(** Modelled from the spec: the acceptance test of [consume] for a reset
    token ([plugins/tokenCheck.js] is not among the sources): the digest of
    the supplied raw value equals the stored digest, and the stored expiry
    has not passed. *)
Definition resetTokenAccepted `{C : Crypto} (t : Z) (u : User) (raw : string) : bool :=
  match pwResetToken u with
  | Some d => String.eqb (sha256_hex raw) d
  | None => false
  end && negb (isPwResetTokenExpired t u).

(** [u'] is [u] except for the password hash and the reset digest and
    expiry. *)
Definition differ_only_in_password_and_pwReset (u u' : User) : Prop :=
  name u' = name u /\ uid u' = uid u /\ email u' = email u /\
  provider u' = provider u /\ role u' = role u /\
  isEmailConfirmed u' = isEmailConfirmed u /\
  confirmEmailToken u' = confirmEmailToken u /\
  confirmEmailTokenExpire u' = confirmEmailTokenExpire u /\
  isDeactivated u' = isDeactivated u /\ createdAt u' = createdAt u /\
  deactivatedAt u' = deactivatedAt u.

(** The record with id [i] exists and is revoked. *)
Definition revoked_in (db : Db) (i : nat) : Prop :=
  exists r, getRftById db i = Some r /\ revoked r = true.

(** Why a refresh token fails validation. *)
Inductive Cause := NotFound | Revoked | PastExpiry.

Definition has_cause (db : Db) (t : Z) (i : nat) (c : Cause) : Prop :=
  match c with
  | NotFound => getRftById db i = None
  | Revoked => exists r, getRftById db i = Some r /\ revoked r = true
  | PastExpiry => exists r, getRftById db i = Some r /\ expiresAt r <= t
  end.

(** The document on [request.userModel] is the stored one: what the
    [attachUser] preHandlers hand to a handler. *)
Definition attached (db : Db) (request : Request) : Prop :=
  users db !! fst (userModel request) = Some (snd (userModel request)).

(** The paths of an account that say who it is. *)
Definition same_identity (u u' : User) : Prop :=
  name u' = name u /\ uid u' = uid u /\ email u' = email u /\
  provider u' = provider u /\ role u' = role u /\ createdAt u' = createdAt u.

(** What the caller receives: the first response sent on [reply]; a later
    send on the same reply is not delivered. *)
Definition delivered (o : Outcome) : option Response := head (out_sent o).

(** The routes that only deal in refresh tokens and access tokens. *)
Definition token_route (rt : Route) : bool :=
  match rt with
  | PostSignin | PostRefresh | PutRefreshRevoke | PutRevokeAll => true
  | _ => false
  end.

(** ** Hex rendering *)

Lemma toHex_length (buf : list Byte.byte) :
  String.length (toHex buf) = (2 * length buf)%nat.
Proof.
  induction buf as [|b rest IH]; simpl; [reflexivity|].
  rewrite IH. lia.
Qed.

Lemma unhex_byte (b : Byte.byte) :
  unhexDigit (hexDigit (N.div (Byte.to_N b) 16)) = Some (N.div (Byte.to_N b) 16) /\
  unhexDigit (hexDigit (N.modulo (Byte.to_N b) 16)) = Some (N.modulo (Byte.to_N b) 16) /\
  Byte.of_N (N.div (Byte.to_N b) 16 * 16 + N.modulo (Byte.to_N b) 16) = Some b.
Proof. destruct b; repeat split; reflexivity. Qed.

Lemma fromHex_toHex (buf : list Byte.byte) : fromHex (toHex buf) = Some buf.
Proof.
  induction buf as [|b rest IH]; [reflexivity|].
  destruct (unhex_byte b) as (Hhi & Hlo & Hb).
  cbn [toHex fromHex]. rewrite Hhi, Hlo, IH, Hb. reflexivity.
Qed.

Lemma toHex_inj (b1 b2 : list Byte.byte) : toHex b1 = toHex b2 -> b1 = b2.
Proof.
  intros E. apply (f_equal fromHex) in E.
  rewrite !fromHex_toHex in E. congruence.
Qed.

Lemma randomBytes_length (n : nat) (r : Rng) : length (fst (randomBytes n r)) = n.
Proof. unfold randomBytes; simpl. rewrite length_map, length_seq. reflexivity. Qed.

Lemma randomBytes_drawn (n : nat) (r : Rng) : drawn_from r n (fst (randomBytes n r)).
Proof.
  split; [apply randomBytes_length|].
  intros i Hi. unfold randomBytes; simpl.
  rewrite list_lookup_fmap, lookup_seq_lt by lia. reflexivity.
Qed.

(** ** Ephemeral tokens: issuance and the cooldown gate *)

(** C9: issuing a reset token draws 50 random bytes, issuing a confirmation
    token draws 30 (both at least 30); the raw token is their hex rendering
    (which loses nothing) and is what the method returns; the document gets
    only the SHA-256 digest of the raw token and the expiry [now + 30 min]
    (reset) or [now + 1 h] (confirmation), every other path unchanged. *)
Theorem ephemeral_issue_stores_digest_and_expiry `{C : Crypto}
    (t : Z) (r : Rng) (u : User) :
  (let '(raw, u', _) := getPwResetToken t r u in
   (exists bytes, drawn_from r 50 bytes /\ (30 <= length bytes)%nat /\
                  raw = toHex bytes /\ fromHex raw = Some bytes) /\
   pwResetToken u' = Some (sha256_hex raw) /\
   pwResetExpire u' = Some (t + 30 * 60 * 1000) /\
   differ_only_in_pwReset u u') /\
  (let '(raw, u', _) := getEmailConfirmationToken t r u in
   (exists bytes, drawn_from r 30 bytes /\ (30 <= length bytes)%nat /\
                  raw = toHex bytes /\ fromHex raw = Some bytes) /\
   confirmEmailToken u' = Some (sha256_hex raw) /\
   confirmEmailTokenExpire u' = Some (t + 60 * 60 * 1000) /\
   differ_only_in_confirmEmail u u').
Proof.
  split.
  - unfold getPwResetToken.
    pose proof (randomBytes_drawn 50 r) as Hd.
    destruct (randomBytes 50 r) as [bytes r'] eqn:E; simpl in Hd.
    split; [|split; [reflexivity|split; [reflexivity|]]].
    + exists bytes. destruct Hd as [Hlen Hnth].
      repeat split; try assumption; try lia. apply fromHex_toHex.
    + unfold differ_only_in_pwReset; simpl. tauto.
  - unfold getEmailConfirmationToken.
    pose proof (randomBytes_drawn 30 r) as Hd.
    destruct (randomBytes 30 r) as [bytes r'] eqn:E; simpl in Hd.
    split; [|split; [reflexivity|split; [reflexivity|]]].
    + exists bytes. destruct Hd as [Hlen Hnth].
      repeat split; try assumption; try lia. apply fromHex_toHex.
    + unfold differ_only_in_confirmEmail; simpl. tauto.
Qed.

(** C10: on a stored account whose reset (confirmation) expiry is absent
    the expiry predicate answers [true] at any time, so POST /resetPassword
    (POST /confirmEmail, for an unconfirmed account) gets past the cooldown
    check: it hands a raw token to the mailer, and the stored account then
    holds the digest of that token and the expiry [now + 30 min]
    ([now + 1 h]). *)
Theorem absent_expiry_opens_gate `{C : Crypto}
    (env : Env) (request : Request) (db : Db) (id : nat) (doc : User) :
  userModel request = (id, doc) ->
  users db !! id = Some doc ->
  (pwResetExpire doc = None ->
     isPwResetTokenExpired (now env) doc = true /\
     exists raw doc',
       getPwResetToken (now env) (rng env) doc = (raw, doc', snd (randomBytes 50 (rng env))) /\
       out_db (requestResetPasswordToken env request db) = User_save db id doc' /\
       out_mails (requestResetPasswordToken env request db)
         = [mkMail PasswordResetMail (email doc) (Some raw)] /\
       users (out_db (requestResetPasswordToken env request db)) !! id = Some doc' /\
       pwResetToken doc' = Some (sha256_hex raw) /\
       pwResetExpire doc' = Some (now env + 30 * 60 * 1000)) /\
  (confirmEmailTokenExpire doc = None ->
     isConfirmEmailTokenExpired (now env) doc = true /\
     (isEmailConfirmed doc = false ->
      exists raw doc',
        getEmailConfirmationToken (now env) (rng env) doc
          = (raw, doc', snd (randomBytes 30 (rng env))) /\
        out_db (requestConfirmationEmail env request db) = User_save db id doc' /\
        out_mails (requestConfirmationEmail env request db)
          = [mkMail ConfirmationMail (email doc) (Some raw)] /\
        users (out_db (requestConfirmationEmail env request db)) !! id = Some doc' /\
        confirmEmailToken doc' = Some (sha256_hex raw) /\
        confirmEmailTokenExpire doc' = Some (now env + 60 * 60 * 1000))).
Proof.
  intros Hm Hdoc.
  assert (Hid : (id < length (users db))%nat) by (eapply lookup_lt_Some; eassumption).
  split.
  - intros Hnone.
    assert (Hexp : isPwResetTokenExpired (now env) doc = true)
      by (unfold isPwResetTokenExpired; rewrite Hnone; reflexivity).
    split; [exact Hexp|].
    unfold requestResetPasswordToken. rewrite Hm, Hexp.
    unfold getPwResetToken.
    destruct (randomBytes 50 (rng env)) as [bytes r']. cbn [negb snd].
    eexists _, _. split; [reflexivity|].
    destruct (es_success (emailStatus env)); cbn [negb out_db out_mails returned].
    all: split; [reflexivity|]; split; [reflexivity|].
    all: split; [cbn; apply list_lookup_insert_eq; exact Hid|].
    all: split; reflexivity.
  - intros Hnone.
    assert (Hexp : isConfirmEmailTokenExpired (now env) doc = true)
      by (unfold isConfirmEmailTokenExpired; rewrite Hnone; reflexivity).
    split; [exact Hexp|].
    intros Hunc. unfold requestConfirmationEmail. rewrite Hm, Hunc, Hexp.
    unfold getEmailConfirmationToken.
    destruct (randomBytes 30 (rng env)) as [bytes r']. cbn [negb snd].
    eexists _, _. split; [reflexivity|].
    destruct (es_success (emailStatus env)); cbn [negb out_db out_mails returned].
    all: split; [reflexivity|]; split; [reflexivity|].
    all: split; [cbn; apply list_lookup_insert_eq; exact Hid|].
    all: split; reflexivity.
Qed.

(** C8: once POST /resetPassword has issued a token at [now1], a second
    call at any [now2] before the stored expiry [now1 + 30 min] is turned
    away with "Please check your email, try again later": it mails nothing
    and leaves the database as it was, so the stored digest is still that of
    the first raw token, which is still accepted at [now2]. *)
Theorem reset_cooldown_keeps_first_token `{C : Crypto}
    (env1 env2 : Env) (req1 req2 : Request) (db : Db) (id : nat) (doc : User) :
  userModel req1 = (id, doc) ->
  users db !! id = Some doc ->
  isPwResetTokenExpired (now env1) doc = true ->
  now env2 < now env1 + 30 * 60 * 1000 ->
  let out1 := requestResetPasswordToken env1 req1 db in
  exists raw doc1,
    out_mails out1 = [mkMail PasswordResetMail (email doc) (Some raw)] /\
    users (out_db out1) !! id = Some doc1 /\
    pwResetToken doc1 = Some (sha256_hex raw) /\
    pwResetExpire doc1 = Some (now env1 + 30 * 60 * 1000) /\
    (userModel req2 = (id, doc1) ->
     requestResetPasswordToken env2 req2 (out_db out1)
       = returned (out_db out1)
           (sendErrorResponse [] 400 "Please check your email, try again later" false)
           []) /\
    resetTokenAccepted (now env2) doc1 raw = true.
Proof.
  intros Hm Hdoc Hexp Hlt out1.
  assert (Hid : (id < length (users db))%nat) by (eapply lookup_lt_Some; eassumption).
  subst out1. unfold requestResetPasswordToken at 1 2, getPwResetToken.
  rewrite Hm, Hexp.
  destruct (randomBytes 50 (rng env1)) as [bytes r']. cbn [negb].
  set (raw := toHex bytes).
  set (doc1 := set_pwReset (Some (sha256_hex raw)) (Some (now env1 + 30 * 60 * 1000)) doc).
  assert (Hclosed : isPwResetTokenExpired (now env2) doc1 = false).
  { unfold isPwResetTokenExpired, doc1; simpl. apply Z.leb_gt. lia. }
  exists raw, doc1.
  assert (Hsaved : users (User_save db id doc1) !! id = Some doc1)
    by (simpl; apply list_lookup_insert_eq; exact Hid).
  destruct (es_success (emailStatus env1)); cbn [negb out_db out_mails returned].
  all: split; [reflexivity|]; split; [exact Hsaved|].
  all: split; [reflexivity|]; split; [reflexivity|]; split.
  all: try (unfold resetTokenAccepted; rewrite Hclosed; simpl;
            rewrite String.eqb_refl; reflexivity).
  all: intros Hm2; unfold requestResetPasswordToken; rewrite Hm2, Hclosed; reflexivity.
Qed.

(** ** Registration *)

Lemma insert_at_end {A} (l : list A) (x y : A) :
  <[length l := y]> (l ++ [x])%list = (l ++ [y])%list.
Proof.
  replace (length l) with (length l + 0)%nat by lia.
  rewrite insert_app_r. reflexivity.
Qed.

Lemma findOne_of_member (db : Db) (u : User) :
  In u (users db) -> exists u', User_findOne db (email u) = Some u'.
Proof.
  intros Hin. unfold User_findOne.
  destruct (find _ (users db)) as [u'|] eqn:E; [eauto|].
  pose proof (find_none _ _ E u Hin) as Hf. simpl in Hf.
  rewrite String.eqb_refl in Hf. discriminate.
Qed.

(** The role [registerUser] computes before it creates the account. *)
Definition bootstrap_role (cfg : Configs) (db : Db) : Role :=
  if CHECK_ADMIN cfg
  then (if Nat.eqb (User_countDocuments db) 0 then RoleAdmin else RoleUser)
  else RoleUser.

(** The [uid] POST /signup draws for the new account. *)
Definition drawn_uid (env : Env) : string := toHex (fst (randomBytes 15 (rng env))).

(** What a registration with a new email and an unused [uid] does, step by
    step. *)
Lemma registerUser_fresh `{C : Crypto} (cfg : Configs) (env : Env) (request : Request) (db : Db) :
  User_findOne db (b_email (body request)) = None ->
  duplicate_key db (drawn_uid env) (b_email (body request)) = false ->
  exists raw doc,
    doc = set_confirmEmail (Some (sha256_hex raw)) (Some (now env + 60 * 60 * 1000))
            (mkUser (b_name (body request)) (drawn_uid env)
               (b_email (body request)) "email"
               (Some (hashPasswd env (b_password (body request))))
               (bootstrap_role cfg db) false None None None None false (now env) None) /\
    registerUser cfg env request db =
      returned
        (mkDb (users db ++ [doc])
           (refreshTokens db ++
              [mkRefreshToken (length (users db)) (now env)
                 (now env + REFRESH_TOKEN_TTL cfg) false None (ipAddress request) None]))
        (sendSuccessResponse [] 201 "Sign up successful"
           (Some (getJWT (now env) (length (users db)) doc)) (Some (emailStatus env))
           (CookieSet (length (refreshTokens db))))
        [mkMail ConfirmationMail (b_email (body request)) (Some raw)].
Proof.
  intros Hnew Hkey. unfold registerUser. rewrite Hnew.
  unfold drawn_uid in *. destruct (randomBytes 15 (rng env)) as [uidBytes rng1] eqn:Hrb.
  cbn [fst] in *. unfold User_create. rewrite Hkey.
  unfold getEmailConfirmationToken, User_save, getRefreshToken, bootstrap_role.
  destruct (randomBytes 30 rng1) as [bytes rng2].
  cbn [fst snd users refreshTokens].
  eexists _, _. split; [reflexivity|].
  rewrite insert_at_end. reflexivity.
Qed.

(** A registration that was answered with something other than an error met
    a new email and an unused [uid]. *)
Lemma registerUser_answered `{C : Crypto} (cfg : Configs) (env : Env) (request : Request)
    (db : Db) (resp : Response) :
  out_sent (registerUser cfg env request db) = [resp] ->
  isError resp = false ->
  User_findOne db (b_email (body request)) = None /\
  duplicate_key db (drawn_uid env) (b_email (body request)) = false.
Proof.
  intros Hsent Hok. unfold registerUser in Hsent.
  destruct (User_findOne db (b_email (body request))) eqn:Hf.
  { cbn in Hsent. injection Hsent as <-. discriminate Hok. }
  split; [reflexivity|].
  unfold drawn_uid. destruct (randomBytes 15 (rng env)) as [uidBytes rng1].
  cbn [fst]. unfold User_create in Hsent.
  destruct (duplicate_key db (toHex uidBytes) (b_email (body request))); [|reflexivity].
  discriminate Hsent.
Qed.

(** C5: when the email of the request is that of an existing account,
    POST /signup answers 400 "Duplicate field value entered", sends no mail
    and leaves the database (so the accounts) exactly as it was. *)
Theorem register_duplicate_email_rejected `{C : Crypto}
    (cfg : Configs) (env : Env) (request : Request) (db : Db) (u : User) :
  In u (users db) ->
  email u = b_email (body request) ->
  registerUser cfg env request db
    = returned db (sendErrorResponse [] 400 "Duplicate field value entered" false) [].
Proof.
  intros Hin He. destruct (findOne_of_member db u Hin) as [u' Hf].
  unfold registerUser. rewrite <- He, Hf. reflexivity.
Qed.

Lemma find_snoc {A} (f : A -> bool) (l : list A) (x : A) :
  find f l = None -> find f (l ++ [x])%list = if f x then Some x else None.
Proof.
  induction l as [|a l IH]; simpl; [reflexivity|].
  destruct (f a); [discriminate|exact IH].
Qed.

Lemma bootstrap_role_admin (cfg : Configs) (db : Db) :
  bootstrap_role cfg db = RoleAdmin <->
  CHECK_ADMIN cfg = true /\ User_countDocuments db = 0%nat.
Proof.
  unfold bootstrap_role.
  destruct (CHECK_ADMIN cfg); [|split; [discriminate|intros [? _]; discriminate]].
  destruct (Nat.eqb_spec (User_countDocuments db) 0) as [E|E].
  - split; auto.
  - split; [discriminate|intros [_ ?]; contradiction].
Qed.

(** C6: a POST /signup that is answered without an error creates exactly
    one account, and its role is "admin" if and only if
    [configs.CHECK_ADMIN] is on and the collection held no account; otherwise
    it is "user".  The access token of the reply carries that role.  In
    particular whatever is registered next, once this account exists, gets
    "user". *)
Theorem register_admin_iff_bootstrap `{C : Crypto}
    (cfg : Configs) (env : Env) (request : Request) (db : Db) (resp : Response) :
  out_sent (registerUser cfg env request db) = [resp] ->
  isError resp = false ->
  let out := registerUser cfg env request db in
  exists doc,
    users (out_db out) = (users db ++ [doc])%list /\
    email doc = b_email (body request) /\
    (role doc = RoleAdmin <->
       CHECK_ADMIN cfg = true /\ User_countDocuments db = 0%nat) /\
    (role doc = RoleUser <->
       ~ (CHECK_ADMIN cfg = true /\ User_countDocuments db = 0%nat)) /\
    jwt_role <$> token resp = Some (role doc) /\
    (forall env2 request2 resp2,
       out_sent (registerUser cfg env2 request2 (out_db out)) = [resp2] ->
       isError resp2 = false ->
       exists doc2,
         users (out_db (registerUser cfg env2 request2 (out_db out)))
           = (users db ++ [doc; doc2])%list /\
         role doc2 = RoleUser /\
         jwt_role <$> token resp2 = Some RoleUser).
Proof.
  intros Hsent Hok out.
  destruct (registerUser_answered cfg env request db resp Hsent Hok) as [Hnew Hkey].
  destruct (registerUser_fresh cfg env request db Hnew Hkey) as (raw & doc & Hdoc & Hreg).
  subst out. rewrite Hreg in Hsent |- *. cbn [out_db out_sent returned users] in *.
  assert (Hrole : role doc = bootstrap_role cfg db) by (subst doc; reflexivity).
  exists doc. split; [reflexivity|]. split; [subst doc; reflexivity|].
  split; [rewrite Hrole; apply bootstrap_role_admin|].
  split.
  { rewrite Hrole, <- bootstrap_role_admin.
    destruct (bootstrap_role cfg db); split; congruence. }
  split.
  { cbn in Hsent. injection Hsent as <-. reflexivity. }
  intros env2 request2 resp2 Hsent2 Hok2.
  destruct (registerUser_answered cfg env2 request2 _ resp2 Hsent2 Hok2) as [Hnew2 Hkey2].
  destruct (registerUser_fresh cfg env2 request2 _ Hnew2 Hkey2)
    as (raw2 & doc2 & Hdoc2 & Hreg2).
  rewrite Hreg2 in Hsent2 |- *. cbn [out_db out_sent returned users] in *.
  assert (Hrole2 : role doc2 = RoleUser).
  { subst doc2. cbn [role set_confirmEmail]. unfold bootstrap_role, User_countDocuments.
    cbn [users]. rewrite length_app. cbn [length].
    replace (length (users db) + 1)%nat with (S (length (users db))) by lia.
    destruct (CHECK_ADMIN cfg); reflexivity. }
  exists doc2. split; [rewrite <- app_assoc; reflexivity|]. split; [exact Hrole2|].
  cbn in Hsent2. injection Hsent2 as <-. cbn. rewrite Hrole2. reflexivity.
Qed.

(** ** Sign-in *)

Lemma substring_prefix (s t : string) :
  substring 0 (String.length s) (String.append s t) = s.
Proof.
  induction s as [|c s IH]; [destruct t; reflexivity|].
  cbn. rewrite IH. reflexivity.
Qed.

Lemma eqb_append_same (s a b : string) :
  String.eqb (String.append s a) (String.append s b) = String.eqb a b.
Proof.
  induction s as [|c s IH]; [reflexivity|].
  cbn. rewrite Ascii.eqb_refl. exact IH.
Qed.

(** What [compare] computes on a hash made under a 29-character salt: it
    compares the digests of the two keys. *)
Lemma bcryptjs_compare (eks : string -> string -> string) (sha : string -> string)
    (entered passwd s : string) :
  String.length s = 29%nat ->
  bcrypt_compare (Crypto := bcryptjs eks sha) entered
    (bcrypt_hash (Crypto := bcryptjs eks sha) passwd s)
  = String.eqb (eks (bcrypt_key entered) s) (eks (bcrypt_key passwd) s).
Proof.
  intros Hlen. cbn [bcrypt_compare bcrypt_hash bcryptjs].
  rewrite <- Hlen, substring_prefix. apply eqb_append_same.
Qed.

(** POST /signin is decided by [bcrypt.compare] against the stored hash. *)
Lemma signin_decided_by_compare `{C : Crypto}
    (cfg : Configs) (env : Env) (request : Request) (db : Db)
    (id : nat) (doc : User) (h : string) :
  userModel request = (id, doc) ->
  password doc = Some h ->
  signin cfg env request db =
    if bcrypt_compare (b_password (body request)) h
    then returned (snd (getRefreshToken cfg (now env) id (ipAddress request) db))
           (sendSuccessResponse [] 200 "Signed in"
              (Some (getJWT (now env) id doc)) (Some (emailStatus env))
              (CookieSet (length (refreshTokens db))))
           [mkMail NewLoginMail (email doc) None]
    else returned db (sendErrorResponse [] 400 "Password Does not match" false) [].
Proof.
  intros Hm Hpw. unfold signin, matchPasswd. rewrite Hm, Hpw.
  destruct (bcrypt_compare (b_password (body request)) h); reflexivity.
Qed.

(** C7, as the spec states it, fails: two passwords of 73 characters that
    differ only in the last one.  Whatever the cipher, the account signed up
    with the first is signed in, 200 "Signed in", with the second. *)
Lemma longer_password_signs_in :
  long_A <> long_B /\
  forall eks sha,
    let out1 :=
      registerUser (C := bcryptjs eks sha) cfg0 (env_bcrypt 0) signup_long emptyDb in
    (exists resp, out_sent out1 = [resp] /\ isError resp = false) /\
    exists doc,
      User_findById (out_db out1) 0 = Some doc /\
      b_password (body signin_long) <> b_password (body signup_long) /\
      out_sent (signin (C := bcryptjs eks sha) cfg0 (env_bcrypt 9)
                  (with_userModel 0 doc signin_long) (out_db out1))
        = sendSuccessResponse [] 200 "Signed in" (Some (getJWT 9 0 doc))
            (Some (emailStatus (env_bcrypt 9))) (CookieSet 1).
Proof.
  assert (Hne : long_A <> long_B).
  { apply String.eqb_neq. vm_compute. reflexivity. }
  split; [exact Hne|]. intros eks sha out1.
  destruct (registerUser_fresh (C := bcryptjs eks sha) cfg0 (env_bcrypt 0) signup_long
              emptyDb eq_refl eq_refl) as (raw & doc & Hdoc & Hreg).
  subst out1. rewrite Hreg. cbn [out_db out_sent returned].
  split; [eexists; split; reflexivity|].
  exists doc. split; [reflexivity|]. split; [exact (not_eq_sym Hne)|].
  assert (Hpw : password doc
                = Some (bcrypt_hash (Crypto := bcryptjs eks sha) long_A (salt (env_bcrypt 0))))
    by (subst doc; reflexivity).
  rewrite (signin_decided_by_compare (C := bcryptjs eks sha) cfg0 (env_bcrypt 9)
             (with_userModel 0 doc signin_long) _ 0%nat doc _ eq_refl Hpw).
  rewrite bcryptjs_compare by reflexivity.
  replace (bcrypt_key (b_password (body (with_userModel 0 doc signin_long))))
    with (bcrypt_key long_A) by (vm_compute; reflexivity).
  rewrite String.eqb_refl. reflexivity.
Qed.

(** C7, amended: bcryptjs with any cipher, a sign-up answered without an
    error, a salt of 29 characters.  The account stored is the one found
    under its email, and POST /signin on it is answered 200 "Signed in"
    (with a new refresh token and an access token) when the digest of the
    entered password's key under the stored salt equals the stored one, and
    400 "Password Does not match", the database untouched, otherwise.  So
    the registered password signs in, and so does every password with the
    same key: the same first 72 bytes. *)
Theorem register_then_signin
    (eks : string -> string -> string) (sha : string -> string)
    (cfg : Configs) (env1 : Env) (request1 : Request) (db : Db) (resp : Response) :
  let C := bcryptjs eks sha in
  out_sent (registerUser (C := C) cfg env1 request1 db) = [resp] ->
  isError resp = false ->
  String.length (salt env1) = 29%nat ->
  let db1 := out_db (registerUser (C := C) cfg env1 request1 db) in
  let id := length (users db) in
  exists doc,
    User_findOne db1 (b_email (body request1)) = Some doc /\
    User_findById db1 id = Some doc /\
    (forall env2 request2,
       userModel request2 = (id, doc) ->
       signin (C := C) cfg env2 request2 db1 =
         if String.eqb (eks (bcrypt_key (b_password (body request2))) (salt env1))
                       (eks (bcrypt_key (b_password (body request1))) (salt env1))
         then returned
                (snd (getRefreshToken cfg (now env2) id (ipAddress request2) db1))
                (sendSuccessResponse [] 200 "Signed in"
                   (Some (getJWT (now env2) id doc)) (Some (emailStatus env2))
                   (CookieSet (length (refreshTokens db1))))
                [mkMail NewLoginMail (b_email (body request1)) None]
         else returned db1 (sendErrorResponse [] 400 "Password Does not match" false) []) /\
    (forall env2 request2,
       userModel request2 = (id, doc) ->
       bcrypt_key (b_password (body request2)) = bcrypt_key (b_password (body request1)) ->
       out_sent (signin (C := C) cfg env2 request2 db1)
         = sendSuccessResponse [] 200 "Signed in"
             (Some (getJWT (now env2) id doc)) (Some (emailStatus env2))
             (CookieSet (length (refreshTokens db1)))).
Proof.
  intros C Hsent Hok Hsalt db1 id.
  destruct (registerUser_answered cfg env1 request1 db resp Hsent Hok) as [Hnew Hkey].
  destruct (registerUser_fresh cfg env1 request1 db Hnew Hkey) as (raw & doc & Hdoc & Hreg).
  subst db1. rewrite Hreg. cbn [out_db returned].
  assert (Hem : email doc = b_email (body request1)) by (subst doc; reflexivity).
  assert (Hpw : password doc
                = Some (bcrypt_hash (b_password (body request1)) (salt env1)))
    by (subst doc; reflexivity).
  assert (Hsignin : forall env2 request2 db',
             userModel request2 = (id, doc) ->
             signin cfg env2 request2 db' =
               if String.eqb (eks (bcrypt_key (b_password (body request2))) (salt env1))
                             (eks (bcrypt_key (b_password (body request1))) (salt env1))
               then returned
                      (snd (getRefreshToken cfg (now env2) id (ipAddress request2) db'))
                      (sendSuccessResponse [] 200 "Signed in"
                         (Some (getJWT (now env2) id doc)) (Some (emailStatus env2))
                         (CookieSet (length (refreshTokens db'))))
                      [mkMail NewLoginMail (b_email (body request1)) None]
               else returned db'
                      (sendErrorResponse [] 400 "Password Does not match" false) []).
  { intros env2 request2 db' Hm.
    rewrite (signin_decided_by_compare cfg env2 request2 db' id doc _ Hm Hpw).
    unfold C. rewrite bcryptjs_compare by exact Hsalt. rewrite Hem. reflexivity. }
  exists doc. split; [|split; [|split]].
  - unfold User_findOne in *. cbn [users]. rewrite find_snoc by exact Hnew.
    rewrite Hem, String.eqb_refl. reflexivity.
  - unfold User_findById. cbn [users]. subst id.
    rewrite lookup_app_r by lia. rewrite Nat.sub_diag. reflexivity.
  - intros env2 request2 Hm. apply Hsignin. exact Hm.
  - intros env2 request2 Hm Hk. rewrite (Hsignin env2 request2 _ Hm), Hk, String.eqb_refl.
    reflexivity.
Qed.

(** ** Password reset *)

Lemma revokeAll_lookup (t : Z) (owner : nat) (ip : option string) (db : Db) (i : nat) :
  refreshTokens (revokeAllRfTokenByUser t owner ip db) !! i
  = (fun r => if Nat.eqb (user r) owner && negb (isExpired t r)
              then revoke t ip r else r) <$> refreshTokens db !! i.
Proof. unfold revokeAllRfTokenByUser; cbn [refreshTokens]. apply list_lookup_fmap. Qed.

(** C4: PUT /resetPassword.  When the two passwords differ the handler
    answers 400 and changes nothing.  When they match it answers 200
    "Password Updated"; the account's document then holds the hash of the new
    password and no reset digest or expiry, its other paths and the other
    accounts being untouched; every refresh token of the account that was
    Active is revoked, and so fails validation at any later time; tokens of
    other accounts are untouched. *)
Theorem resetPassword_effects `{C : Crypto}
    (env : Env) (request : Request) (db : Db) (id : nat) (doc : User) :
  userModel request = (id, doc) ->
  users db !! id = Some doc ->
  let out := resetPasswordFromToken env request db in
  (b_password (body request) <> b_confirmPassword (body request) ->
   out = returned db
           (sendErrorResponse [] 400 "Password and confirmed password are different" false)
           []) /\
  (b_password (body request) = b_confirmPassword (body request) ->
   out_completion out = Returned /\
   out_sent out
     = sendSuccessResponse [] 200 "Password Updated" None (Some (emailStatus env)) CookieKeep /\
   (exists doc',
      users (out_db out) !! id = Some doc' /\
      password doc' = Some (bcrypt_hash (b_password (body request)) (salt env)) /\
      pwResetToken doc' = None /\ pwResetExpire doc' = None /\
      differ_only_in_password_and_pwReset doc doc') /\
   (forall j, j <> id -> users (out_db out) !! j = users db !! j) /\
   (forall i r,
      getRftById db i = Some r -> user r = id -> isExpired (now env) r = false ->
      exists r', getRftById (out_db out) i = Some r' /\ revoked r' = true /\
                 forall t', isExpired t' r' = true) /\
   (forall i r,
      getRftById db i = Some r -> user r <> id -> getRftById (out_db out) i = Some r)).
Proof.
  intros Hm Hdoc out. subst out. unfold resetPasswordFromToken. rewrite Hm.
  assert (Hid : (id < length (users db))%nat) by (eapply lookup_lt_Some; eassumption).
  split.
  - intros Hne. apply String.eqb_neq in Hne. rewrite Hne. reflexivity.
  - intros Heq. apply String.eqb_eq in Heq. rewrite Heq.
    cbn [negb out_completion out_sent out_db returned].
    split; [reflexivity|]. split; [reflexivity|]. split; [|split; [|split]].
    + eexists. split.
      * unfold User_save; cbn [users revokeAllRfTokenByUser].
        apply list_lookup_insert_eq. exact Hid.
      * repeat split; reflexivity.
    + intros j Hj. unfold User_save; cbn [users revokeAllRfTokenByUser].
      apply list_lookup_insert_ne. congruence.
    + intros i r Hr Ho Hact. unfold getRftById in *.
      cbn [User_save refreshTokens]. rewrite revokeAll_lookup, Hr. cbn [fmap option_fmap option_map].
      rewrite Ho, Nat.eqb_refl, Hact. cbn [andb negb].
      eexists. split; [reflexivity|]. split; [reflexivity|]. reflexivity.
    + intros i r Hr Ho. unfold getRftById in *.
      cbn [User_save refreshTokens]. rewrite revokeAll_lookup, Hr. cbn [fmap option_fmap option_map].
      apply Nat.eqb_neq in Ho. rewrite Ho. reflexivity.
Qed.

(** ** Refresh tokens: revocation is permanent *)

(** Every record revoked in [db] is still there and revoked in [db']. *)
Definition keeps_revoked (db db' : Db) : Prop :=
  forall i, revoked_in db i -> revoked_in db' i.

Lemma keeps_revoked_refl (db : Db) : keeps_revoked db db.
Proof. intros i H; exact H. Qed.

Lemma keeps_revoked_trans (a b c : Db) :
  keeps_revoked a b -> keeps_revoked b c -> keeps_revoked a c.
Proof. intros Hab Hbc i H. apply Hbc, Hab, H. Qed.

Lemma keeps_revoked_User_save (db db' : Db) (id : nat) (u : User) :
  keeps_revoked db db' -> keeps_revoked db (User_save db' id u).
Proof. intros H i Hi. exact (H i Hi). Qed.

Lemma keeps_revoked_issue (db db' : Db) (cfg : Configs) (t : Z) (owner : nat) (ip : string) :
  keeps_revoked db db' ->
  keeps_revoked db (snd (getRefreshToken cfg t owner ip db')).
Proof.
  intros H i Hi. destruct (H i Hi) as (r & Hr & Hrev).
  exists r. split; [|exact Hrev].
  unfold getRftById in *. cbn [getRefreshToken snd refreshTokens].
  apply lookup_app_l_Some. exact Hr.
Qed.

Lemma keeps_revoked_revoke (db db' : Db) (j : nat) (t : Z) (ip : option string)
    (r : RefreshToken) :
  keeps_revoked db db' ->
  keeps_revoked db (RefreshToken_save db' j (revoke t ip r)).
Proof.
  intros H i Hi. destruct (H i Hi) as (r0 & Hr0 & Hrev).
  unfold revoked_in, getRftById in *. cbn [RefreshToken_save refreshTokens].
  destruct (decide (j = i)) as [->|Hne].
  - exists (revoke t ip r). split; [|reflexivity].
    apply list_lookup_insert_eq. eapply lookup_lt_Some; eassumption.
  - exists r0. split; [|exact Hrev].
    rewrite list_lookup_insert_ne by exact Hne. exact Hr0.
Qed.

Lemma keeps_revoked_revokeAll (db db' : Db) (t : Z) (owner : nat) (ip : option string) :
  keeps_revoked db db' ->
  keeps_revoked db (revokeAllRfTokenByUser t owner ip db').
Proof.
  intros H i Hi. destruct (H i Hi) as (r & Hr & Hrev).
  unfold revoked_in, getRftById in *. rewrite revokeAll_lookup, Hr.
  cbn [fmap option_fmap option_map].
  destruct (_ && _); eexists; (split; [reflexivity|]); [reflexivity|exact Hrev].
Qed.

Lemma keeps_revoked_grown (db db' : Db) (l : list RefreshToken) :
  refreshTokens db' = (refreshTokens db ++ l)%list -> keeps_revoked db db'.
Proof.
  intros E i (r & Hr & Hrev). exists r. split; [|exact Hrev].
  unfold getRftById in *. rewrite E. apply lookup_app_l_Some. exact Hr.
Qed.

Create HintDb rft.
#[local] Hint Resolve keeps_revoked_refl keeps_revoked_User_save keeps_revoked_issue
  keeps_revoked_revoke keeps_revoked_revokeAll : rft.

(** Splits a handler into its branches, naming nothing. *)
Ltac handler_branches :=
  repeat match goal with
    | |- context [match ?x with _ => _ end] =>
        lazymatch x with
        | getRefreshToken _ _ _ _ _ => fail
        | _ => destruct x eqn:?
        end
    end.

(** No request un-revokes or removes a revoked refresh token. *)
Lemma handle_keeps_revoked `{C : Crypto} (cfg : Configs) (rt : Route) (env : Env)
    (request : Request) (db : Db) :
  keeps_revoked db (out_db (handle cfg rt env request db)).
Proof.
  destruct rt; cbn [handle].
  - destruct (User_findOne db (b_email (body request))) eqn:Hf.
    + unfold registerUser. rewrite Hf. apply keeps_revoked_refl.
    + destruct (duplicate_key db (drawn_uid env) (b_email (body request))) eqn:Hk.
      * unfold registerUser, User_create, drawn_uid in *. rewrite Hf.
        destruct (randomBytes 15 (rng env)) as [uidBytes rng1]. cbn [fst] in Hk.
        rewrite Hk. apply keeps_revoked_refl.
      * destruct (registerUser_fresh cfg env request db Hf Hk) as (raw & doc & _ & ->).
        cbn [out_db returned]. eapply keeps_revoked_grown. reflexivity.
  - unfold signin. destruct (userModel request) as [id doc].
    destruct (matchPasswd doc _) as [[|]|]; cbn [out_db returned threw]; auto with rft.
    change (keeps_revoked db
              (snd (getRefreshToken cfg (now env) id (ipAddress request) db))).
    auto with rft.
  - unfold confirmEmail. destruct (userModel request) as [id doc].
    cbn [out_db returned]. auto with rft.
  - unfold requestConfirmationEmail, getEmailConfirmationToken.
    destruct (userModel request) as [id doc]. cbn [randomBytes].
    handler_branches; cbn [out_db returned]; auto with rft.
  - unfold requestResetPasswordToken, getPwResetToken.
    destruct (userModel request) as [id doc]. cbn [randomBytes].
    handler_branches; cbn [out_db returned]; auto with rft.
  - unfold resetPasswordFromToken. destruct (userModel request) as [id doc].
    handler_branches; cbn [out_db returned]; auto with rft.
  - unfold updatePassword. destruct (userModel request) as [id doc].
    handler_branches; cbn [out_db returned threw]; auto with rft.
  - unfold deleteAccount. destruct (userModel request) as [id doc].
    handler_branches; cbn [out_db returned threw]; auto with rft.
  - unfold getJWTFromRefresh.
    destruct (getRftById db (rtid request)) as [rft|]; [|apply keeps_revoked_refl].
    destruct (isExpired (now env) rft); [apply keeps_revoked_refl|].
    destruct (User_findById db (user rft)) as [doc|]; [|apply keeps_revoked_refl].
    change (keeps_revoked db
              (snd (getRefreshToken cfg (now env) (user rft) (ipAddress request)
                      (RefreshToken_save db (rtid request)
                         (revoke (now env) (Some (ipAddress request)) rft))))).
    auto with rft.
  - unfold revokeRefreshToken.
    handler_branches; cbn [out_db returned threw]; auto with rft.
  - unfold revokeAllRefreshTokens. destruct (userModel request) as [id doc].
    cbn [out_db returned]. auto with rft.
Qed.

Lemma steps_keep_revoked `{C : Crypto} (cfg : Configs) (db db' : Db) :
  steps cfg db db' -> keeps_revoked db db'.
Proof.
  induction 1 as [db|db db' db'' Hstep _ IH]; [apply keeps_revoked_refl|].
  destruct Hstep as (rt & env & request & <-).
  eapply keeps_revoked_trans; [apply handle_keeps_revoked|exact IH].
Qed.

Lemma revoked_fails_validation (db : Db) (i : nat) :
  revoked_in db i ->
  exists r, getRftById db i = Some r /\ forall t, isExpired t r = true.
Proof.
  intros (r & Hr & Hrev). exists r. split; [exact Hr|].
  intros t. unfold isExpired. rewrite Hrev. reflexivity.
Qed.

(** What POST /refresh does when the token is found, usable, and its owner
    exists. *)
Lemma getJWTFromRefresh_success (cfg : Configs) (env : Env)
    (request : Request) (db : Db) (rft : RefreshToken) (doc : User) :
  getRftById db (rtid request) = Some rft ->
  isExpired (now env) rft = false ->
  User_findById db (user rft) = Some doc ->
  getJWTFromRefresh cfg env request db =
    returned
      (mkDb (users db)
         (<[rtid request := revoke (now env) (Some (ipAddress request)) rft]> (refreshTokens db)
          ++ [mkRefreshToken (user rft) (now env) (now env + REFRESH_TOKEN_TTL cfg)
                false None (ipAddress request) None]))
      (sendSuccessResponse [] 200 "Refresh token : successful"
         (Some (getJWT (now env) (user rft) doc)) None
         (CookieSet (length (refreshTokens db))))
      [].
Proof.
  intros Hr He Hu. unfold getJWTFromRefresh. rewrite Hr, He, Hu.
  unfold getRefreshToken, RefreshToken_save. cbn [users refreshTokens].
  rewrite length_insert. reflexivity.
Qed.

(** C1: when POST /refresh succeeds on token [t] (one response, not an
    error), the reply sets a refresh token with a new id, whose record is
    not revoked, and [t] is now revoked.  From then on, whatever requests are
    served in between, the record of [t] fails the validity check at any
    time (whatever its expiry), and every further POST /refresh with [t] is
    answered 400 "Refresh Token Expired" and changes nothing. *)
Theorem rotation_succeeds_at_most_once `{C : Crypto}
    (cfg : Configs) (env : Env) (request : Request) (db : Db) (resp : Response) :
  out_sent (getJWTFromRefresh cfg env request db) = [resp] ->
  isError resp = false ->
  let out := getJWTFromRefresh cfg env request db in
  let t := rtid request in
  (exists newId rNew,
      cookie resp = CookieSet newId /\ newId <> t /\
      getRftById db newId = None /\
      getRftById (out_db out) newId = Some rNew /\ revoked rNew = false) /\
  revoked_in (out_db out) t /\
  forall db2, steps cfg (out_db out) db2 ->
    forall env2 request2, rtid request2 = t ->
      (exists r2, getRftById db2 t = Some r2 /\ forall t', isExpired t' r2 = true) /\
      getJWTFromRefresh cfg env2 request2 db2
        = returned db2 (sendErrorResponse [] 400 "Refresh Token Expired" false) [].
Proof.
  intros Hsent Hok out t.
  assert (Hshape : exists rft doc,
             getRftById db t = Some rft /\ isExpired (now env) rft = false /\
             User_findById db (user rft) = Some doc).
  { subst t. unfold getJWTFromRefresh in Hsent.
    destruct (getRftById db (rtid request)) as [rft|] eqn:Hr.
    2: { cbn in Hsent. injection Hsent as <-. discriminate Hok. }
    destruct (isExpired (now env) rft) eqn:He.
    1: { cbn in Hsent. injection Hsent as <-. discriminate Hok. }
    destruct (User_findById db (user rft)) as [doc|] eqn:Hu.
    2: { cbn in Hsent. injection Hsent as <-. discriminate Hok. }
    eauto. }
  destruct Hshape as (rft & doc & Hr & He & Hu).
  pose proof (getJWTFromRefresh_success cfg env request db rft doc Hr He Hu) as Hrun.
  assert (Hlt : (t < length (refreshTokens db))%nat)
    by (eapply lookup_lt_Some; exact Hr).
  assert (Hrev : revoked_in (out_db out) t).
  { subst out. rewrite Hrun. cbn [out_db returned].
    exists (revoke (now env) (Some (ipAddress request)) rft). split; [|reflexivity].
    unfold getRftById. cbn [refreshTokens].
    apply lookup_app_l_Some, list_lookup_insert_eq. exact Hlt. }
  split; [|split; [exact Hrev|]].
  - rewrite Hrun in Hsent. cbn in Hsent. injection Hsent as <-.
    eexists (length (refreshTokens db)), _. cbn [cookie].
    split; [reflexivity|]. split; [lia|]. split.
    + unfold getRftById. apply lookup_ge_None. lia.
    + subst out. rewrite Hrun. cbn [out_db returned]. unfold getRftById.
      cbn [refreshTokens]. split.
      * rewrite lookup_app_r by (rewrite length_insert; lia).
        rewrite length_insert, Nat.sub_diag. reflexivity.
      * reflexivity.
  - intros db2 Hsteps env2 request2 Ht.
    pose proof (steps_keep_revoked cfg _ _ Hsteps t Hrev) as Hrev2.
    destruct (revoked_fails_validation db2 t Hrev2) as (r2 & Hr2 & Hexp2).
    split; [eauto|].
    unfold getJWTFromRefresh. rewrite Ht, Hr2, Hexp2. reflexivity.
Qed.

(** ** Refresh tokens: how a failed validation is reported *)

(** C3, as the spec states it, fails: at time 2000 on [db0], POST /refresh
    with an id that has no record is answered differently from POST /refresh
    with Alice's token, which is past its expiry; and on [db0_revoked] at
    time 5 the reply for the unknown id differs from the reply for the
    revoked token. *)
Lemma refresh_not_found_is_told_apart :
  has_cause db0 2000 7 NotFound /\
  has_cause db0 2000 0 PastExpiry /\
  out_sent (getJWTFromRefresh cfg0 (env_at 2000) (with_rtid 7 req0) db0)
    <> out_sent (getJWTFromRefresh cfg0 (env_at 2000) req0 db0) /\
  has_cause db0_revoked 5 7 NotFound /\
  has_cause db0_revoked 5 0 Revoked /\
  out_sent (getJWTFromRefresh cfg0 (env_at 5) (with_rtid 7 req0) db0_revoked)
    <> out_sent (getJWTFromRefresh cfg0 (env_at 5) req0 db0_revoked).
Proof.
  split; [reflexivity|]. split; [eexists; split; [reflexivity|cbn; lia]|].
  split; [cbv; discriminate|]. split; [reflexivity|].
  split; [eexists; split; reflexivity|]. cbv; discriminate.
Qed.

(** C3, amended: POST /refresh reports a revoked record and a record past
    its expiry identically, 400 "Refresh Token Expired", and an id without a
    record as 400 "Invalid Refresh Token"; in each case nothing changes.
    PUT /refresh/revoke by the owner of the token also answers 400 "Refresh
    Token Expired" (clearing the cookie) for a revoked record and for one
    past its expiry alike. *)
Theorem refresh_failure_reports
    (cfg : Configs) (env : Env) (request : Request) (db : Db) (c : Cause) :
  has_cause db (now env) (rtid request) c ->
  getJWTFromRefresh cfg env request db
    = returned db
        (sendErrorResponse [] 400
           (match c with
            | NotFound => "Invalid Refresh Token"
            | Revoked | PastExpiry => "Refresh Token Expired"
            end) false)
        [] /\
  forall rft doc,
    getRftById db (rtid request) = Some rft ->
    User_findById db (user rft) = Some doc ->
    uid doc = jwt_uid (req_user request) ->
    revokeRefreshToken env request db
      = returned db (sendErrorResponse [] 400 "Refresh Token Expired" true) [].
Proof.
  intros Hc.
  assert (Hexp : forall rft, getRftById db (rtid request) = Some rft ->
                             isExpired (now env) rft = true).
  { intros rft Hr. unfold isExpired. destruct c; cbn in Hc.
    - congruence.
    - destruct Hc as (r & Hr' & Hrev). assert (r = rft) by congruence. subst r.
      rewrite Hrev. reflexivity.
    - destruct Hc as (r & Hr' & Hle). assert (r = rft) by congruence. subst r.
      apply Z.leb_le in Hle. rewrite Hle. apply orb_true_r. }
  split.
  - unfold getJWTFromRefresh.
    destruct (getRftById db (rtid request)) as [rft|] eqn:Hr.
    + rewrite (Hexp rft eq_refl).
      destruct c; cbn in Hc; [congruence|reflexivity|reflexivity].
    + destruct c; cbn in Hc; [reflexivity| |]; destruct Hc as (r & Hr' & _); congruence.
  - intros rft doc Hr Hu Huid. unfold revokeRefreshToken.
    rewrite Hr, Hu, Huid, String.eqb_refl, (Hexp rft Hr). reflexivity.
Qed.

(** ** Refresh tokens: revoking another account's token *)

(** PUT /refresh/revoke never stops at its ownership check: whenever the
    record and its owner exist and the record is still usable, the record
    ends up revoked, whoever asked. *)
Lemma revokeRefreshToken_ignores_owner
    (env : Env) (request : Request) (db : Db) (rft : RefreshToken) (doc : User) :
  getRftById db (rtid request) = Some rft ->
  User_findById db (user rft) = Some doc ->
  isExpired (now env) rft = false ->
  revoked_in (out_db (revokeRefreshToken env request db)) (rtid request).
Proof.
  intros Hr Hu He. unfold revokeRefreshToken. rewrite Hr, Hu, He.
  cbn [out_db returned].
  exists (revoke (now env) (Some (ipAddress request)) rft). split; [|reflexivity].
  unfold getRftById, RefreshToken_save. cbn [refreshTokens].
  apply list_lookup_insert_eq. eapply lookup_lt_Some. exact Hr.
Qed.

(** C2 on the code: Bob asks to revoke Alice's Active token.  The handler
    sends 400 "Invalid Refresh Token", then goes on, revokes the token and
    sends 200 "Refresh token successfully revoked"; for an id without a
    record it sends the same 400 and then throws, the database untouched. *)
Theorem cross_account_revoke_goes_through :
  uid alice <> jwt_uid (req_user bob_revokes_alice) /\
  revokeRefreshToken (env_at 5) bob_revokes_alice db0
    = returned
        (mkDb [alice; bob]
           [mkRefreshToken 0 0 1000 true (Some 5) "10.0.0.1" (Some "10.0.0.1")])
        (sendSuccessResponse (sendInvalidToken [])
           200 "Refresh token successfully revoked" None None CookieClear)
        [] /\
  revokeRefreshToken (env_at 5) (with_rtid 7 bob_revokes_alice) db0
    = threw db0 (sendInvalidToken []) [].
Proof. split; [cbv; discriminate|]. split; reflexivity. Qed.

(** ** The theorems at concrete requests *)

(** Alice rotates her token at time 5; presenting it again at time 6 is
    refused. *)
Lemma rotation_succeeds_at_most_once_witness :
  let out := getJWTFromRefresh cfg0 (env_at 5) req0 db0 in
  (exists resp, out_sent out = [resp] /\ isError resp = false) /\
  revoked_in (out_db out) 0 /\
  getJWTFromRefresh cfg0 (env_at 6) req0 (out_db out)
    = returned (out_db out) (sendErrorResponse [] 400 "Refresh Token Expired" false) [].
Proof.
  intros out.
  split; [eexists; split; reflexivity|].
  destruct (rotation_succeeds_at_most_once (C := refCrypto) cfg0 (env_at 5) req0 db0 _
              eq_refl eq_refl) as (_ & Hrev & Hlater).
  split; [exact Hrev|].
  exact (proj2 (Hlater _ (steps_refl cfg0 _) (env_at 6) req0 eq_refl)).
Defined.

(** Alice's token is past its expiry at time 2000. *)
Lemma refresh_failure_reports_witness :
  has_cause db0 (now (env_at 2000)) (rtid req0) PastExpiry /\
  getJWTFromRefresh cfg0 (env_at 2000) req0 db0
    = returned db0 (sendErrorResponse [] 400 "Refresh Token Expired" false) [].
Proof.
  assert (H : has_cause db0 (now (env_at 2000)) (rtid req0) PastExpiry)
    by (eexists; split; [reflexivity|cbn; lia]).
  split; [exact H|].
  exact (proj1 (refresh_failure_reports cfg0 (env_at 2000) req0 db0 PastExpiry H)).
Defined.

(** Alice resets her password at time 5 while her token is Active. *)
Lemma resetPassword_effects_witness :
  userModel reset_request = (0%nat, alice) /\
  users db0 !! 0%nat = Some alice /\
  let out := resetPasswordFromToken (C := refCrypto) (env_at 5) reset_request db0 in
  out_completion out = Returned /\
  (exists doc', users (out_db out) !! 0%nat = Some doc' /\
                password doc' = Some "$2a$10$newpw1234" /\
                pwResetToken doc' = None /\ pwResetExpire doc' = None) /\
  revoked_in (out_db out) 0.
Proof.
  split; [reflexivity|]. split; [reflexivity|]. intros out.
  destruct (resetPassword_effects (C := refCrypto) (env_at 5) reset_request db0 0%nat alice
              eq_refl eq_refl) as [_ Hmatch].
  destruct (Hmatch eq_refl) as (Hret & _ & (doc' & Hd & Hpw & Htok & Hexp & _) & _ & Hrevoke & _).
  split; [exact Hret|]. split; [exists doc'; auto|].
  destruct (Hrevoke 0%nat _ eq_refl eq_refl eq_refl) as (r' & Hr' & Hrev & _).
  exists r'. auto.
Defined.

(** A second sign-up with Alice's email. *)
Lemma register_duplicate_email_rejected_witness :
  In alice (users db0) /\
  email alice = b_email (body signup_A) /\
  registerUser (C := refCrypto) cfg0 (env_at 5) signup_A db0
    = returned db0 (sendErrorResponse [] 400 "Duplicate field value entered" false) [].
Proof.
  assert (Hin : In alice (users db0)) by (left; reflexivity).
  split; [exact Hin|]. split; [reflexivity|].
  exact (register_duplicate_email_rejected (C := refCrypto) cfg0 (env_at 5) signup_A db0
           alice Hin eq_refl).
Defined.

(** The bootstrap scenario: A signs up into the empty system, then B. *)
Lemma register_admin_iff_bootstrap_witness :
  let out := registerUser (C := refCrypto) cfg0 (env_at 0) signup_A emptyDb in
  let out' := registerUser (C := refCrypto) cfg0 (later_env 1) signup_B (out_db out) in
  (exists resp, out_sent out = [resp] /\ isError resp = false) /\
  (exists resp', out_sent out' = [resp'] /\ isError resp' = false) /\
  exists docA docB,
    users (out_db out) = [docA] /\ role docA = RoleAdmin /\
    users (out_db out') = [docA; docB] /\ role docB = RoleUser.
Proof.
  intros out out'.
  split; [eexists; split; reflexivity|]. split; [eexists; split; reflexivity|].
  destruct (register_admin_iff_bootstrap (C := refCrypto) cfg0 (env_at 0) signup_A emptyDb
              _ eq_refl eq_refl) as (docA & HA & _ & Hadmin & _ & _ & Hnext).
  destruct (Hnext (later_env 1) signup_B _ eq_refl eq_refl) as (docB & HB & HroleB & _).
  exists docA, docB. split; [exact HA|]. split; [|split; [exact HB|exact HroleB]].
  apply Hadmin. split; reflexivity.
Defined.

(** A signs up into the empty system and then signs in. *)
Lemma register_then_signin_witness :
  let out1 := registerUser (C := refBcryptjs) cfg0 (env_bcrypt 0) signup_A emptyDb in
  (exists resp, out_sent out1 = [resp] /\ isError resp = false) /\
  String.length (salt (env_bcrypt 0)) = 29%nat /\
  exists doc,
    User_findOne (out_db out1) "a@x.com" = Some doc /\
    out_sent (signin (C := refBcryptjs) cfg0 (env_bcrypt 9)
                (with_userModel 0 doc signup_A) (out_db out1))
      = sendSuccessResponse [] 200 "Signed in" (Some (getJWT 9 0 doc))
          (Some (emailStatus (env_bcrypt 9))) (CookieSet 1) /\
    signin (C := refBcryptjs) cfg0 (env_bcrypt 9)
        (with_userModel 0 doc signin_wrong) (out_db out1)
      = returned (out_db out1)
          (sendErrorResponse [] 400 "Password Does not match" false) [].
Proof.
  intros out1. split; [eexists; split; reflexivity|]. split; [reflexivity|].
  destruct (register_then_signin refEks (fun x => String.append "sha256:" x) cfg0
              (env_bcrypt 0) signup_A emptyDb _ eq_refl eq_refl eq_refl)
    as (doc & Hfind & _ & Hs & Hk).
  exists doc. split; [exact Hfind|]. split.
  - exact (Hk (env_bcrypt 9) (with_userModel 0 doc signup_A) eq_refl eq_refl).
  - exact (Hs (env_bcrypt 9) (with_userModel 0 doc signin_wrong) eq_refl).
Defined.

(** Alice asks for a reset token at time 0 and again at time 1000. *)
Lemma reset_cooldown_keeps_first_token_witness :
  userModel req0 = (0%nat, alice) /\
  users db0 !! 0%nat = Some alice /\
  isPwResetTokenExpired (now (env_at 0)) alice = true /\
  now (env_at 1000) < now (env_at 0) + 30 * 60 * 1000 /\
  let out1 := requestResetPasswordToken (C := refCrypto) (env_at 0) req0 db0 in
  exists raw doc1,
    out_mails out1 = [mkMail PasswordResetMail "a@x.com" (Some raw)] /\
    users (out_db out1) !! 0%nat = Some doc1 /\
    requestResetPasswordToken (C := refCrypto) (env_at 1000)
        (with_userModel 0 doc1 req0) (out_db out1)
      = returned (out_db out1)
          (sendErrorResponse [] 400 "Please check your email, try again later" false) [] /\
    resetTokenAccepted (C := refCrypto) 1000 doc1 raw = true.
Proof.
  assert (Hlt : now (env_at 1000) < now (env_at 0) + 30 * 60 * 1000) by (cbn; lia).
  split; [reflexivity|]. split; [reflexivity|]. split; [reflexivity|].
  split; [exact Hlt|]. intros out1.
  destruct (reset_cooldown_keeps_first_token (C := refCrypto) (env_at 0) (env_at 1000)
              req0 (with_userModel 0 alice req0) db0 0%nat alice eq_refl eq_refl eq_refl Hlt)
    as (raw & doc1 & Hmail & Hsaved & Hdig & Hexp & _ & Hacc).
  destruct (reset_cooldown_keeps_first_token (C := refCrypto) (env_at 0) (env_at 1000)
              req0 (with_userModel 0 doc1 req0) db0 0%nat alice eq_refl eq_refl eq_refl Hlt)
    as (raw' & doc1' & _ & Hsaved' & _ & _ & Hgate & _).
  assert (doc1' = doc1) by congruence. subst doc1'.
  exists raw, doc1. split; [exact Hmail|]. split; [exact Hsaved|].
  split; [exact (Hgate eq_refl)|exact Hacc].
Defined.

(** Carol, a stored account, has never been issued a token; she asks for
    both kinds at time 5. *)
Lemma absent_expiry_opens_gate_witness :
  let request := with_userModel 2 carol req0 in
  userModel request = (2%nat, carol) /\
  users db_with_carol !! 2%nat = Some carol /\
  pwResetExpire carol = None /\ confirmEmailTokenExpire carol = None /\
  isPwResetTokenExpired 5 carol = true /\
  isConfirmEmailTokenExpired 5 carol = true /\
  (exists raw doc',
     out_mails (requestResetPasswordToken (C := refCrypto) (env_at 5) request db_with_carol)
       = [mkMail PasswordResetMail "c@x.com" (Some raw)] /\
     users (out_db (requestResetPasswordToken (C := refCrypto) (env_at 5) request
                      db_with_carol)) !! 2%nat = Some doc' /\
     pwResetToken doc' = Some (sha256_hex (Crypto := refCrypto) raw)) /\
  (exists raw doc',
     out_mails (requestConfirmationEmail (C := refCrypto) (env_at 5) request db_with_carol)
       = [mkMail ConfirmationMail "c@x.com" (Some raw)] /\
     users (out_db (requestConfirmationEmail (C := refCrypto) (env_at 5) request
                      db_with_carol)) !! 2%nat = Some doc' /\
     confirmEmailToken doc' = Some (sha256_hex (Crypto := refCrypto) raw)).
Proof.
  intros request.
  split; [reflexivity|]. split; [reflexivity|]. split; [reflexivity|].
  split; [reflexivity|].
  destruct (absent_expiry_opens_gate (C := refCrypto) (env_at 5) request db_with_carol
              2%nat carol eq_refl eq_refl) as [Hreset Hconfirm].
  destruct (Hreset eq_refl) as (Hr1 & raw & doc' & _ & _ & Hmail & Hlook & Hdig & _).
  destruct (Hconfirm eq_refl) as (Hc1 & Hc2).
  destruct (Hc2 eq_refl) as (raw2 & doc2 & _ & _ & Hmail2 & Hlook2 & Hdig2 & _).
  split; [exact Hr1|]. split; [exact Hc1|]. split.
  - exists raw, doc'. auto.
  - exists raw2, doc2. auto.
Defined.

(** ** Beyond the claims: what a rejected request leaves behind *)

(** Closes a branch of a handler: either it changes nothing, or its reply
    cannot be the 400 (or the throw) assumed in [H]. *)
Ltac no_effect H :=
  cbn in H |- *;
  first
    [ split; reflexivity
    | exfalso; destruct H as [(H1 & H2)|H1];
      [ first [ discriminate H1
              | injection H1 as <-; cbn in H2; discriminate H2 ]
      | discriminate H1 ] ].

(** X1: on every writing route but PUT /refresh/revoke, a request that was
    answered 400 (the response delivered to the caller), or whose handler
    threw, left the database as it was and mailed nothing.  PUT
    /refresh/revoke is the exception: its handler can deliver a 400 and
    still write. *)
Theorem rejected_request_changes_nothing `{C : Crypto}
    (cfg : Configs) (rt : Route) (env : Env) (request : Request) (db : Db)
    (resp : Response) :
  rt <> PutRefreshRevoke ->
  (delivered (handle cfg rt env request db) = Some resp /\ statusCode resp = 400) \/
  out_completion (handle cfg rt env request db) = Threw ->
  out_db (handle cfg rt env request db) = db /\
  out_mails (handle cfg rt env request db) = [].
Proof.
  intros Hrt H. unfold delivered in H. destruct rt; cbn [handle] in *.
  - unfold registerUser, User_create, getEmailConfirmationToken in *.
    destruct (User_findOne db _); [no_effect H|].
    destruct (randomBytes 15 (rng env)) as [uidBytes rng1].
    destruct (duplicate_key db _ _); [no_effect H|].
    destruct (randomBytes 30 rng1) as [bytes rng2]. no_effect H.
  - unfold signin in *. destruct (userModel request) as [id doc].
    destruct (matchPasswd doc _) as [[|]|]; no_effect H.
  - unfold confirmEmail in *. destruct (userModel request) as [id doc]. no_effect H.
  - unfold requestConfirmationEmail, getEmailConfirmationToken in *.
    destruct (userModel request) as [id doc].
    destruct (isEmailConfirmed doc); [no_effect H|].
    destruct (isConfirmEmailTokenExpired (now env) doc); [|no_effect H].
    destruct (randomBytes 30 (rng env)) as [bytes rng1].
    destruct (es_success (emailStatus env)); no_effect H.
  - unfold requestResetPasswordToken, getPwResetToken in *.
    destruct (userModel request) as [id doc].
    destruct (isPwResetTokenExpired (now env) doc); [|no_effect H].
    destruct (randomBytes 50 (rng env)) as [bytes rng1].
    destruct (es_success (emailStatus env)); no_effect H.
  - unfold resetPasswordFromToken in *. destruct (userModel request) as [id doc].
    destruct (String.eqb _ _); no_effect H.
  - unfold updatePassword in *. destruct (userModel request) as [id doc].
    destruct (matchPasswd doc _) as [[|]|]; [|no_effect H|no_effect H].
    destruct (String.eqb _ _); no_effect H.
  - unfold deleteAccount in *. destruct (userModel request) as [id doc].
    destruct (matchPasswd doc _) as [[|]|]; no_effect H.
  - unfold getJWTFromRefresh in *.
    destruct (getRftById db (rtid request)) as [rft|]; [|no_effect H].
    destruct (isExpired (now env) rft); [no_effect H|].
    destruct (User_findById db (user rft)) as [doc|]; no_effect H.
  - contradiction.
  - unfold revokeAllRefreshTokens in *. destruct (userModel request) as [id doc].
    no_effect H.
Qed.

(** X2: signing in, refreshing, revoking one token and revoking all tokens
    never write to the accounts. *)
Theorem token_routes_leave_accounts `{C : Crypto}
    (cfg : Configs) (rt : Route) (env : Env) (request : Request) (db : Db) :
  token_route rt = true ->
  users (out_db (handle cfg rt env request db)) = users db.
Proof.
  intros Hrt. destruct rt; try discriminate Hrt; cbn [handle].
  - unfold signin. destruct (userModel request) as [id doc].
    destruct (matchPasswd doc _) as [[|]|]; reflexivity.
  - unfold getJWTFromRefresh.
    destruct (getRftById db (rtid request)) as [rft|]; [|reflexivity].
    destruct (isExpired (now env) rft); [reflexivity|].
    destruct (User_findById db (user rft)) as [doc|]; reflexivity.
  - unfold revokeRefreshToken.
    destruct (getRftById db (rtid request)) as [rft|]; [|reflexivity].
    destruct (User_findById db (user rft)) as [doc|]; [|reflexivity].
    destruct (isExpired (now env) rft); reflexivity.
  - unfold revokeAllRefreshTokens. destruct (userModel request) as [id doc]. reflexivity.
Qed.

(** ** Beyond the claims: the accounts collection *)

Lemma same_identity_refl (u : User) : same_identity u u.
Proof. repeat split. Qed.

(** The three ways a request can leave the accounts: untouched, the attached
    document rewritten in place with its identity kept, or one account with
    a new email appended. *)
Lemma handle_users_shape `{C : Crypto}
    (cfg : Configs) (rt : Route) (env : Env) (request : Request) (db : Db) :
  let db' := out_db (handle cfg rt env request db) in
  users db' = users db \/
  (exists doc', users db' = <[fst (userModel request) := doc']> (users db) /\
                same_identity (snd (userModel request)) doc') \/
  (exists doc', users db' = (users db ++ [doc'])%list /\
                User_findOne db (email doc') = None).
Proof.
  assert (Hsave : forall db1 id doc doc',
             users db1 = users db -> same_identity doc doc' ->
             fst (id, doc) = id -> 
             users (User_save db1 id doc') = users db \/
             (exists d, users (User_save db1 id doc') = <[id := d]> (users db) /\
                        same_identity doc d) \/
             (exists d, users (User_save db1 id doc') = (users db ++ [d])%list /\
                        User_findOne db (email d) = None)).
  { intros db1 id doc doc' E Hs _. right; left. exists doc'.
    split; [cbn; rewrite E; reflexivity|exact Hs]. }
  cbv zeta. destruct rt; cbn [handle].
  - destruct (User_findOne db (b_email (body request))) eqn:Hf.
    { unfold registerUser. rewrite Hf. left; reflexivity. }
    destruct (duplicate_key db (drawn_uid env) (b_email (body request))) eqn:Hk.
    + unfold registerUser, User_create, drawn_uid in *. rewrite Hf.
      destruct (randomBytes 15 (rng env)) as [uidBytes rng1]. cbn [fst] in Hk.
      rewrite Hk. left; reflexivity.
    + destruct (registerUser_fresh cfg env request db Hf Hk) as (raw & doc & Hd & ->).
      right; right. exists doc. split; [reflexivity|].
      subst doc. exact Hf.
  - unfold signin. destruct (userModel request) as [id doc].
    destruct (matchPasswd doc _) as [[|]|]; left; reflexivity.
  - unfold confirmEmail. destruct (userModel request) as [id doc]. cbn [fst snd out_db returned].
    apply (Hsave db id doc); repeat split.
  - unfold requestConfirmationEmail, getEmailConfirmationToken.
    destruct (userModel request) as [id doc]. cbn [fst snd].
    destruct (isEmailConfirmed doc); [left; reflexivity|].
    destruct (isConfirmEmailTokenExpired (now env) doc); [|left; reflexivity].
    destruct (randomBytes 30 (rng env)) as [bytes rng1].
    destruct (es_success (emailStatus env)); cbn [negb out_db returned];
      apply (Hsave db id doc); repeat split.
  - unfold requestResetPasswordToken, getPwResetToken.
    destruct (userModel request) as [id doc]. cbn [fst snd].
    destruct (isPwResetTokenExpired (now env) doc); [|left; reflexivity].
    destruct (randomBytes 50 (rng env)) as [bytes rng1].
    destruct (es_success (emailStatus env)); cbn [negb out_db returned];
      apply (Hsave db id doc); repeat split.
  - unfold resetPasswordFromToken. destruct (userModel request) as [id doc]. cbn [fst snd].
    destruct (String.eqb _ _); cbn [negb out_db returned]; [|left; reflexivity].
    apply (Hsave _ id doc); repeat split.
  - unfold updatePassword. destruct (userModel request) as [id doc]. cbn [fst snd].
    destruct (matchPasswd doc _) as [[|]|]; cbn [negb out_db returned threw];
      [|left; reflexivity|left; reflexivity].
    destruct (String.eqb _ _); cbn [negb out_db returned]; [|left; reflexivity].
    apply (Hsave _ id doc); repeat split.
  - unfold deleteAccount. destruct (userModel request) as [id doc]. cbn [fst snd].
    destruct (matchPasswd doc _) as [[|]|]; cbn [negb out_db returned threw];
      [|left; reflexivity|left; reflexivity].
    apply (Hsave _ id doc); repeat split.
  - unfold getJWTFromRefresh.
    destruct (getRftById db (rtid request)) as [rft|]; [|left; reflexivity].
    destruct (isExpired (now env) rft); [left; reflexivity|].
    destruct (User_findById db (user rft)) as [doc|]; left; reflexivity.
  - unfold revokeRefreshToken.
    destruct (getRftById db (rtid request)) as [rft|]; [|left; reflexivity].
    destruct (User_findById db (user rft)) as [doc|]; [|left; reflexivity].
    destruct (isExpired (now env) rft); left; reflexivity.
  - unfold revokeAllRefreshTokens. destruct (userModel request) as [id doc].
    left; reflexivity.
Qed.

Lemma findOne_none_not_elem (db : Db) (e : string) :
  User_findOne db e = None -> e ∉ email <$> users db.
Proof.
  intros Hf Hin. apply list_elem_of_fmap in Hin as (u & -> & Hu).
  apply list_elem_of_In in Hu.
  pose proof (find_none _ _ Hf u Hu) as Hb. cbn in Hb.
  rewrite String.eqb_refl in Hb. discriminate.
Qed.

(** X3: when the document a handler works on is the stored one, no request
    removes an account or changes the name, uid, email, provider, role or
    creation time of any account; and if no two accounts shared an email
    before the request, none do after it. *)
Theorem accounts_keep_identity `{C : Crypto}
    (cfg : Configs) (rt : Route) (env : Env) (request : Request) (db : Db) :
  attached db request ->
  let db' := out_db (handle cfg rt env request db) in
  (forall j u, users db !! j = Some u ->
     exists u', users db' !! j = Some u' /\ same_identity u u') /\
  (NoDup (email <$> users db) -> NoDup (email <$> users db')).
Proof.
  intros Hatt db'.
  destruct (handle_users_shape cfg rt env request db) as [E|[(d & E & Hs)|(d & E & Hf)]];
    fold db' in E; rewrite E.
  - split; [|auto]. intros j u Hu. exists u. split; [exact Hu|apply same_identity_refl].
  - unfold attached in Hatt.
    destruct (userModel request) as [id doc]; cbn [fst snd] in *.
    split.
    + intros j u Hu. destruct (decide (id = j)) as [->|Hne].
      * exists d. split.
        -- apply list_lookup_insert_eq. eapply lookup_lt_Some; exact Hu.
        -- assert (u = doc) by congruence. subst u. exact Hs.
      * exists u. split; [|apply same_identity_refl].
        rewrite list_lookup_insert_ne by exact Hne. exact Hu.
    + intros Hnd. rewrite list_fmap_insert.
      rewrite list_insert_id; [exact Hnd|].
      rewrite list_lookup_fmap, Hatt. cbn.
      destruct Hs as (_ & _ & -> & _). reflexivity.
  - split.
    + intros j u Hu. exists u. split; [|apply same_identity_refl].
      apply lookup_app_l_Some. exact Hu.
    + intros Hnd. rewrite fmap_app. apply NoDup_app. split; [exact Hnd|]. split.
      * intros e He Hin. cbn in Hin. apply list_elem_of_singleton in Hin. subst e.
        exact (findOne_none_not_elem db (email d) Hf He).
      * cbn. apply NoDup_singleton.
Qed.

(** ** Beyond the claims: password change, deactivation, confirmation *)

(** X4: PUT /updatePassword on a stored account with hash [h].  When
    [bcrypt.compare] rejects the current password against [h] the request is
    refused first, whatever the new passwords are; then differing new
    passwords are refused; either way nothing changes.  Otherwise the stored
    document keeps its identity and any pending reset digest and expiry,
    holds the hash of the new password, and from then on POST /signin on it
    is decided by [bcrypt.compare] against that hash. *)
Theorem updatePassword_then_signin `{C : Crypto}
    (cfg : Configs) (env : Env) (request : Request) (db : Db)
    (id : nat) (doc : User) (h : string) :
  userModel request = (id, doc) ->
  users db !! id = Some doc ->
  password doc = Some h ->
  let out := updatePassword env request db in
  if bcrypt_compare (b_currentPassword (body request)) h
  then
    if String.eqb (b_password (body request)) (b_confirmPassword (body request))
    then
      exists doc1,
        users (out_db out) !! id = Some doc1 /\
        same_identity doc doc1 /\
        pwResetToken doc1 = pwResetToken doc /\
        pwResetExpire doc1 = pwResetExpire doc /\
        password doc1 = Some (hashPasswd env (b_password (body request))) /\
        forall env2 request2,
          userModel request2 = (id, doc1) ->
          out_sent (signin cfg env2 request2 (out_db out)) =
            if bcrypt_compare (b_password (body request2))
                 (hashPasswd env (b_password (body request)))
            then sendSuccessResponse [] 200 "Signed in"
                   (Some (getJWT (now env2) id doc1)) (Some (emailStatus env2))
                   (CookieSet (length (refreshTokens (out_db out))))
            else sendErrorResponse [] 400 "Password Does not match" false
    else out = returned db
                 (sendErrorResponse [] 400
                    "Password and confirmed password are different" false) []
  else out = returned db
               (sendErrorResponse [] 400 "Your entered the wrong password" false) [].
Proof.
  intros Hm Hdoc Hpw out. subst out. unfold updatePassword, matchPasswd.
  rewrite Hm, Hpw.
  assert (Hid : (id < length (users db))%nat) by (eapply lookup_lt_Some; eassumption).
  destruct (bcrypt_compare (b_currentPassword (body request)) h); [|reflexivity].
  cbn [negb].
  destruct (String.eqb (b_password (body request)) (b_confirmPassword (body request)));
    [|reflexivity].
  cbn [negb out_db returned].
  eexists. split; [cbn; apply list_lookup_insert_eq; exact Hid|].
  split; [repeat split|]. split; [reflexivity|]. split; [reflexivity|].
  split; [reflexivity|].
  intros env2 request2 Hm2.
  rewrite (signin_decided_by_compare cfg env2 request2 _ id _ _ Hm2 eq_refl).
  destruct (bcrypt_compare (b_password (body request2))
              (hashPasswd env (b_password (body request)))); reflexivity.
Qed.

(** X5: DELETE /account on a stored account with hash [h].  When
    [bcrypt.compare] rejects the password against [h] it answers 400 and
    changes nothing.  When it accepts, the handler only marks the account:
    the collection keeps its size, the document keeps its identity and its
    password hash, [isDeactivated] is set and [deactivatedAt] is the time of
    the request; the refresh tokens are what [revokeAllRfTokenByUser]
    leaves, and no mail is sent. *)
Theorem deleteAccount_only_deactivates `{C : Crypto}
    (env : Env) (request : Request) (db : Db) (id : nat) (doc : User) (h : string) :
  userModel request = (id, doc) ->
  users db !! id = Some doc ->
  password doc = Some h ->
  let out := deleteAccount env request db in
  if bcrypt_compare (b_password (body request)) h
  then
    length (users (out_db out)) = length (users db) /\
    (exists doc1,
       users (out_db out) !! id = Some doc1 /\
       same_identity doc doc1 /\ password doc1 = password doc /\
       isDeactivated doc1 = true /\ deactivatedAt doc1 = Some (now env)) /\
    (forall j, j <> id -> users (out_db out) !! j = users db !! j) /\
    refreshTokens (out_db out)
      = refreshTokens
          (revokeAllRfTokenByUser (now env) id (Some (ipAddress request)) db) /\
    out_mails out = []
  else
    out = returned db
            (sendErrorResponse [] 400
               "We could not delete your account.Your entered the wrong password" false)
            [].
Proof.
  intros Hm Hdoc Hpw out. subst out. unfold deleteAccount, matchPasswd.
  rewrite Hm, Hpw.
  assert (Hid : (id < length (users db))%nat) by (eapply lookup_lt_Some; eassumption).
  destruct (bcrypt_compare (b_password (body request)) h); [|reflexivity].
  cbn [negb out_db out_mails returned].
  split; [cbn; apply length_insert|]. split.
  { eexists. split; [cbn; apply list_lookup_insert_eq; exact Hid|].
    split; [repeat split|]. split; [exact Hpw|]. split; reflexivity. }
  split; [|split; reflexivity].
  intros j Hj. cbn. apply list_lookup_insert_ne. congruence.
Qed.

(** X6: PUT /confirmEmail marks the stored account confirmed and clears the
    confirmation digest and expiry, keeping its identity and password hash
    and leaving the refresh tokens alone; from then on POST /confirmEmail on
    that account is answered 400 "Email already confirmed" at any time,
    with no mail and no change. *)
Theorem confirmEmail_then_resend_refused `{C : Crypto}
    (env : Env) (request : Request) (db : Db) (id : nat) (doc : User) :
  userModel request = (id, doc) ->
  users db !! id = Some doc ->
  let out := confirmEmail env request db in
  exists doc1,
    users (out_db out) !! id = Some doc1 /\
    isEmailConfirmed doc1 = true /\
    confirmEmailToken doc1 = None /\ confirmEmailTokenExpire doc1 = None /\
    same_identity doc doc1 /\ password doc1 = password doc /\
    refreshTokens (out_db out) = refreshTokens db /\
    forall env2 request2,
      userModel request2 = (id, doc1) ->
      requestConfirmationEmail env2 request2 (out_db out)
        = returned (out_db out)
            (sendErrorResponse [] 400 "Email already confirmed" false) [].
Proof.
  intros Hm Hdoc out. subst out. unfold confirmEmail. rewrite Hm.
  assert (Hid : (id < length (users db))%nat) by (eapply lookup_lt_Some; eassumption).
  cbn [out_db returned].
  eexists. split; [cbn; apply list_lookup_insert_eq; exact Hid|].
  split; [reflexivity|]. split; [reflexivity|]. split; [reflexivity|].
  split; [repeat split|]. split; [reflexivity|]. split; [reflexivity|].
  intros env2 request2 Hm2. unfold requestConfirmationEmail. rewrite Hm2. reflexivity.
Qed.

(** ** Beyond the claims: issuing again *)

(** X7: after a POST /signup that was answered without an error, a
    POST /confirmEmail for the new account is refused with the "recently
    sent" message, changing nothing, as long as the clock is before the
    sign-up time plus one hour; from that instant on it issues and mails a
    new confirmation token. *)
Theorem register_then_resend `{C : Crypto}
    (cfg : Configs) (env1 : Env) (request1 : Request) (db : Db) (resp : Response) :
  out_sent (registerUser cfg env1 request1 db) = [resp] ->
  isError resp = false ->
  let db1 := out_db (registerUser cfg env1 request1 db) in
  let id := length (users db) in
  exists doc,
    users db1 !! id = Some doc /\
    forall env2 request2,
      userModel request2 = (id, doc) ->
      if now env2 <? now env1 + 60 * 60 * 1000
      then requestConfirmationEmail env2 request2 db1
             = returned db1 (sendErrorResponse [] 400 confirmationRecentlySent false) []
      else exists raw doc2,
             out_mails (requestConfirmationEmail env2 request2 db1)
               = [mkMail ConfirmationMail (b_email (body request1)) (Some raw)] /\
             users (out_db (requestConfirmationEmail env2 request2 db1)) !! id = Some doc2 /\
             confirmEmailToken doc2 = Some (sha256_hex raw) /\
             confirmEmailTokenExpire doc2 = Some (now env2 + 60 * 60 * 1000).
Proof.
  intros Hsent Hok db1 id.
  destruct (registerUser_answered cfg env1 request1 db resp Hsent Hok) as [Hnew Hkey].
  destruct (registerUser_fresh cfg env1 request1 db Hnew Hkey) as (raw & doc & Hdoc & Hreg).
  subst db1. rewrite Hreg. cbn [out_db returned users].
  assert (Hlook : (users db ++ [doc])%list !! id = Some doc).
  { subst id. rewrite lookup_app_r by lia. rewrite Nat.sub_diag. reflexivity. }
  exists doc. split; [exact Hlook|].
  intros env2 request2 Hm2. unfold requestConfirmationEmail, getEmailConfirmationToken.
  rewrite Hm2.
  assert (Hexp : isConfirmEmailTokenExpired (now env2) doc
                 = negb (now env2 <? now env1 + 60 * 60 * 1000)).
  { subst doc. unfold isConfirmEmailTokenExpired; cbn. apply Z.leb_antisym. }
  assert (Hunc : isEmailConfirmed doc = false) by (subst doc; reflexivity).
  assert (Hem : email doc = b_email (body request1)) by (subst doc; reflexivity).
  rewrite Hunc, Hexp.
  destruct (now env2 <? now env1 + 60 * 60 * 1000); cbn [negb]; [reflexivity|].
  destruct (randomBytes 30 (rng env2)) as [bytes rng1].
  assert (Hid : (id < length (users db ++ [doc])%list)%nat)
    by (eapply lookup_lt_Some; exact Hlook).
  eexists _, _.
  destruct (es_success (emailStatus env2)); cbn [negb out_db out_mails returned].
  all: split; [rewrite <- Hem; reflexivity|].
  all: split; [cbn; apply list_lookup_insert_eq; exact Hid|].
  all: split; reflexivity.
Qed.

(** X8: when the mailer fails, POST /resetPassword answers 500 with the
    mailer's message, but the digest and the expiry are already saved: a
    retry before the 30 minutes are over is turned away by the cooldown. *)
Theorem reset_mail_failure_starts_cooldown `{C : Crypto}
    (env1 env2 : Env) (req1 req2 : Request) (db : Db) (id : nat) (doc : User) :
  userModel req1 = (id, doc) ->
  users db !! id = Some doc ->
  isPwResetTokenExpired (now env1) doc = true ->
  es_success (emailStatus env1) = false ->
  now env2 < now env1 + 30 * 60 * 1000 ->
  let out1 := requestResetPasswordToken env1 req1 db in
  out_sent out1 = sendErrorResponse [] 500 (es_message (emailStatus env1)) false /\
  exists doc1,
    users (out_db out1) !! id = Some doc1 /\
    pwResetExpire doc1 = Some (now env1 + 30 * 60 * 1000) /\
    (userModel req2 = (id, doc1) ->
     requestResetPasswordToken env2 req2 (out_db out1)
       = returned (out_db out1)
           (sendErrorResponse [] 400 "Please check your email, try again later" false)
           []).
Proof.
  intros Hm Hdoc Hexp Hdown Hlt out1.
  assert (Hid : (id < length (users db))%nat) by (eapply lookup_lt_Some; eassumption).
  subst out1. unfold requestResetPasswordToken at 1 2 3, getPwResetToken.
  rewrite Hm, Hexp, Hdown.
  destruct (randomBytes 50 (rng env1)) as [bytes r']. cbn [negb out_sent out_db returned].
  split; [reflexivity|].
  eexists. split; [cbn; apply list_lookup_insert_eq; exact Hid|].
  split; [reflexivity|].
  intros Hm2. unfold requestResetPasswordToken. rewrite Hm2.
  unfold isPwResetTokenExpired. cbn [pwResetExpire set_pwReset].
  replace (now env1 + 30 * 60 * 1000 <=? now env2) with false
    by (symmetry; apply Z.leb_gt; lia).
  reflexivity.
Qed.

(** X9: a document whose reset token was issued at [t1] gets a new one from
    POST /resetPassword at any time from [t1 + 30 min] on: the new raw token
    is mailed, and the stored digest and expiry are the new token's. *)
Theorem reset_reissue_after_expiry `{C : Crypto}
    (env2 : Env) (request2 : Request) (db : Db) (id : nat) (doc1 : User) (t1 : Z) :
  userModel request2 = (id, doc1) ->
  users db !! id = Some doc1 ->
  pwResetExpire doc1 = Some (t1 + 30 * 60 * 1000) ->
  t1 + 30 * 60 * 1000 <= now env2 ->
  let out := requestResetPasswordToken env2 request2 db in
  exists raw doc2,
    out_mails out = [mkMail PasswordResetMail (email doc1) (Some raw)] /\
    users (out_db out) !! id = Some doc2 /\
    pwResetToken doc2 = Some (sha256_hex raw) /\
    pwResetExpire doc2 = Some (now env2 + 30 * 60 * 1000) /\
    same_identity doc1 doc2.
Proof.
  intros Hm Hdoc Hexp Hle out.
  assert (Hid : (id < length (users db))%nat) by (eapply lookup_lt_Some; eassumption).
  subst out. unfold requestResetPasswordToken, getPwResetToken, isPwResetTokenExpired.
  rewrite Hm, Hexp. apply Z.leb_le in Hle. rewrite Hle. cbn [negb].
  destruct (randomBytes 50 (rng env2)) as [bytes r'].
  eexists _, _.
  destruct (es_success (emailStatus env2)); cbn [negb out_db out_mails returned].
  all: split; [reflexivity|].
  all: split; [cbn; apply list_lookup_insert_eq; exact Hid|].
  all: split; [reflexivity|]; split; [reflexivity|]; repeat split.
Qed.

(** X10: after a PUT /resetPassword with matching passwords the stored
    document has no reset expiry, so the cooldown is over at once: a
    POST /resetPassword at any time issues and mails a new token; and
    POST /signin on the document is decided by [bcrypt.compare] against the
    hash of the new password. *)
Theorem resetPassword_then_signin_and_reissue `{C : Crypto}
    (cfg : Configs) (env : Env) (request : Request) (db : Db) (id : nat) (doc : User) :
  userModel request = (id, doc) ->
  users db !! id = Some doc ->
  b_password (body request) = b_confirmPassword (body request) ->
  let out := resetPasswordFromToken env request db in
  exists doc1,
    users (out_db out) !! id = Some doc1 /\
    (forall env2 request2,
       userModel request2 = (id, doc1) ->
       out_sent (signin cfg env2 request2 (out_db out)) =
         if bcrypt_compare (b_password (body request2))
              (hashPasswd env (b_password (body request)))
         then sendSuccessResponse [] 200 "Signed in"
                (Some (getJWT (now env2) id doc1)) (Some (emailStatus env2))
                (CookieSet (length (refreshTokens (out_db out))))
         else sendErrorResponse [] 400 "Password Does not match" false) /\
    (forall env2 request2,
       userModel request2 = (id, doc1) ->
       exists raw doc2,
         out_mails (requestResetPasswordToken env2 request2 (out_db out))
           = [mkMail PasswordResetMail (email doc) (Some raw)] /\
         users (out_db (requestResetPasswordToken env2 request2 (out_db out))) !! id
           = Some doc2 /\
         pwResetToken doc2 = Some (sha256_hex raw) /\
         pwResetExpire doc2 = Some (now env2 + 30 * 60 * 1000)).
Proof.
  intros Hm Hdoc Heq out. subst out. unfold resetPasswordFromToken. rewrite Hm.
  assert (Hid : (id < length (users db))%nat) by (eapply lookup_lt_Some; eassumption).
  apply String.eqb_eq in Heq. rewrite Heq. cbn [negb out_db returned].
  eexists. split; [cbn; apply list_lookup_insert_eq; exact Hid|]. split.
  - intros env2 request2 Hm2.
    rewrite (signin_decided_by_compare cfg env2 request2 _ id _ _ Hm2 eq_refl).
    destruct (bcrypt_compare (b_password (body request2))
                (hashPasswd env (b_password (body request)))); reflexivity.
  - intros env2 request2 Hm2.
    unfold requestResetPasswordToken, getPwResetToken. rewrite Hm2.
    cbn [isPwResetTokenExpired pwResetExpire set_pwReset negb].
    destruct (randomBytes 50 (rng env2)) as [bytes r'].
    eexists _, _.
    destruct (es_success (emailStatus env2)); cbn [negb out_db out_mails returned].
    all: split; [reflexivity|].
    all: split; [cbn; apply list_lookup_insert_eq; rewrite length_insert; exact Hid|].
    all: split; reflexivity.
Qed.

(** ** Beyond the claims: what is issued at sign-up *)

Lemma draws_agree (n : nat) (r r' : Rng) :
  fst (randomBytes n r) = fst (randomBytes n r') ->
  forall i, (i < n)%nat -> r i = r' i.
Proof.
  intros E i Hi.
  destruct (randomBytes_drawn n r) as [_ H1].
  destruct (randomBytes_drawn n r') as [_ H2].
  specialize (H1 i Hi). specialize (H2 i Hi). rewrite E in H1. congruence.
Qed.

(** X11: the raw reset token is always 100 characters long, the raw
    confirmation token 60 and the uid drawn at sign-up 30; and two reset
    (confirmation) tokens are equal only when the 50 (30) random bytes they
    were made from are. *)
Theorem issued_strings `{C : Crypto} (t : Z) (r r' : Rng) (u : User) (env : Env) :
  let reset x := fst (fst (getPwResetToken t x u)) in
  let confirmation x := fst (fst (getEmailConfirmationToken t x u)) in
  String.length (reset r) = 100%nat /\
  String.length (confirmation r) = 60%nat /\
  String.length (drawn_uid env) = 30%nat /\
  (reset r = reset r' -> forall i, (i < 50)%nat -> r i = r' i) /\
  (confirmation r = confirmation r' -> forall i, (i < 30)%nat -> r i = r' i).
Proof.
  intros reset confirmation. subst reset confirmation.
  unfold getPwResetToken, getEmailConfirmationToken, drawn_uid.
  pose proof (randomBytes_length 50 r) as L50.
  pose proof (randomBytes_length 30 r) as L30.
  pose proof (randomBytes_length 15 (rng env)) as L15.
  pose proof (draws_agree 50 r r') as A50.
  pose proof (draws_agree 30 r r') as A30.
  destruct (randomBytes 50 r) as [b50 ?], (randomBytes 50 r') as [b50' ?],
           (randomBytes 30 r) as [b30 ?], (randomBytes 30 r') as [b30' ?],
           (randomBytes 15 (rng env)) as [b15 ?].
  cbn [fst] in *. rewrite !toHex_length, L50, L30, L15.
  split; [reflexivity|]. split; [reflexivity|]. split; [reflexivity|].
  split; intros E; [apply A50|apply A30]; apply toHex_inj; exact E.
Qed.

(** X12: a POST /signup answered without an error is answered 201 whatever
    the mailer reported (its verdict is only copied into the reply).  The
    stored account is unconfirmed, holds the hash of the submitted password
    and the digest of exactly the raw token that was mailed, expiring one
    hour later; the access token of the reply is the
    one minted from the stored account. *)
Theorem register_reply_matches_account `{C : Crypto}
    (cfg : Configs) (env : Env) (request : Request) (db : Db) (resp : Response) :
  out_sent (registerUser cfg env request db) = [resp] ->
  isError resp = false ->
  let out := registerUser cfg env request db in
  let id := length (users db) in
  exists doc raw,
    users (out_db out) !! id = Some doc /\
    out_mails out = [mkMail ConfirmationMail (b_email (body request)) (Some raw)] /\
    confirmEmailToken doc = Some (sha256_hex raw) /\
    confirmEmailTokenExpire doc = Some (now env + 60 * 60 * 1000) /\
    isEmailConfirmed doc = false /\ isDeactivated doc = false /\
    password doc = Some (bcrypt_hash (b_password (body request)) (salt env)) /\
    name doc = b_name (body request) /\ uid doc = drawn_uid env /\
    statusCode resp = 201 /\
    emailSuccess resp = Some (es_success (emailStatus env)) /\
    emailMessage resp = Some (es_message (emailStatus env)) /\
    token resp = Some (getJWT (now env) id doc).
Proof.
  intros Hsent Hok out id.
  destruct (registerUser_answered cfg env request db resp Hsent Hok) as [Hnew Hkey].
  destruct (registerUser_fresh cfg env request db Hnew Hkey) as (raw & doc & Hdoc & Hreg).
  subst out. rewrite Hreg in Hsent |- *. cbn [out_db out_mails out_sent returned users] in *.
  cbn in Hsent. injection Hsent as <-.
  exists doc, raw. split.
  { subst id. rewrite lookup_app_r by lia. rewrite Nat.sub_diag. reflexivity. }
  split; [reflexivity|]. subst doc. cbn. repeat split.
Qed.

(** X13: GET /account answers from the access token.  With the token of the
    sign-up reply it reports the registered name and email and the role
    given at sign-up, and it still reports the email as unconfirmed after
    PUT /confirmEmail has confirmed the stored account. *)
Theorem getAccount_reports_token_claims `{C : Crypto}
    (cfg : Configs) (env1 env2 : Env) (request1 request2 request3 : Request)
    (db : Db) (resp : Response) (jwt : Jwt) (doc : User) :
  out_sent (registerUser cfg env1 request1 db) = [resp] ->
  isError resp = false ->
  token resp = Some jwt ->
  let db1 := out_db (registerUser cfg env1 request1 db) in
  let id := length (users db) in
  users db1 !! id = Some doc ->
  userModel request2 = (id, doc) ->
  let db2 := out_db (confirmEmail env2 request2 db1) in
  exists doc2,
    users db2 !! id = Some doc2 /\ isEmailConfirmed doc2 = true /\
    (req_user request3 = jwt -> userModel request3 = (id, doc2) ->
     getAccount request3
       = mkAccountInfo 200 "User Found" (b_name (body request1)) (b_email (body request1))
           (bootstrap_role cfg db) false false).
Proof.
  intros Hsent Hok Htok db1 id Hdoc Hm2 db2.
  destruct (registerUser_answered cfg env1 request1 db resp Hsent Hok) as [Hnew Hkey].
  destruct (registerUser_fresh cfg env1 request1 db Hnew Hkey) as (raw & d & Hd & Hreg).
  subst db2 db1. rewrite Hreg in Hsent, Hdoc |- *.
  cbn [out_db out_sent returned users] in *.
  cbn in Hsent. injection Hsent as <-. cbn in Htok. injection Htok as <-.
  assert (doc = d).
  { subst id. rewrite lookup_app_r in Hdoc by lia.
    rewrite Nat.sub_diag in Hdoc. cbn in Hdoc. congruence. }
  subst doc. unfold confirmEmail. rewrite Hm2. cbn [out_db returned].
  eexists. split.
  { cbn. apply list_lookup_insert_eq. rewrite length_app. cbn. subst id. lia. }
  split; [reflexivity|].
  intros Hu Hm3. unfold getAccount. rewrite Hu, Hm3. subst d. reflexivity.
Qed.

(** ** Beyond the claims: revoking one refresh token *)

(** X15: PUT /refresh/revoke by the owner of a usable token sends one
    response, 200 with the cookie cleared, and writes only that record:
    every other refresh token and every account is as before. *)
Theorem revoke_by_owner_writes_one_record
    (env : Env) (request : Request) (db : Db) (rft : RefreshToken) (doc : User) :
  getRftById db (rtid request) = Some rft ->
  User_findById db (user rft) = Some doc ->
  uid doc = jwt_uid (req_user request) ->
  isExpired (now env) rft = false ->
  let out := revokeRefreshToken env request db in
  out_sent out
    = sendSuccessResponse [] 200 "Refresh token successfully revoked" None None CookieClear /\
  out_completion out = Returned /\
  users (out_db out) = users db /\
  length (refreshTokens (out_db out)) = length (refreshTokens db) /\
  getRftById (out_db out) (rtid request)
    = Some (revoke (now env) (Some (ipAddress request)) rft) /\
  forall j, j <> rtid request -> getRftById (out_db out) j = getRftById db j.
Proof.
  intros Hr Hu Huid He out. subst out. unfold revokeRefreshToken.
  rewrite Hr, Hu, Huid, String.eqb_refl, He. cbn [negb out_sent out_completion out_db returned].
  split; [reflexivity|]. split; [reflexivity|]. split; [reflexivity|].
  unfold getRftById, RefreshToken_save in *. cbn [refreshTokens].
  split; [apply length_insert|]. split.
  - apply list_lookup_insert_eq. eapply lookup_lt_Some. exact Hr.
  - intros j Hj. apply list_lookup_insert_ne. congruence.
Qed.

(** X14: PUT /refresh/revoke with an access token of another account than
    the token's owner, on a usable token: the handler sends 400 "Invalid
    Refresh Token" and then 200 "Refresh token successfully revoked", and
    the record is revoked all the same. *)
Theorem revoke_by_stranger_goes_through
    (env : Env) (request : Request) (db : Db) (rft : RefreshToken) (doc : User) :
  getRftById db (rtid request) = Some rft ->
  User_findById db (user rft) = Some doc ->
  uid doc <> jwt_uid (req_user request) ->
  isExpired (now env) rft = false ->
  let out := revokeRefreshToken env request db in
  out_sent out
    = [mkResponse true 400 "Invalid Refresh Token" None None None CookieClear;
       mkResponse false 200 "Refresh token successfully revoked" None None None CookieClear] /\
  out_completion out = Returned /\
  getRftById (out_db out) (rtid request)
    = Some (revoke (now env) (Some (ipAddress request)) rft).
Proof.
  intros Hr Hu Huid He out. subst out. unfold revokeRefreshToken.
  apply String.eqb_neq in Huid. rewrite Hr, Hu, Huid, He.
  cbn [negb out_sent out_completion out_db returned].
  split; [reflexivity|]. split; [reflexivity|].
  unfold getRftById, RefreshToken_save in *. cbn [refreshTokens].
  apply list_lookup_insert_eq. eapply lookup_lt_Some. exact Hr.
Qed.

(** ** The further theorems at concrete requests *)

Lemma rejected_request_changes_nothing_witness :
  let out := handle (C := refCrypto) cfg0 PostSignin (env_at 5) signin_wrong db0 in
  PostSignin <> PutRefreshRevoke /\
  (exists resp, delivered out = Some resp /\ statusCode resp = 400) /\
  out_db out = db0 /\ out_mails out = [].
Proof.
  intros out.
  assert (Hrt : PostSignin <> PutRefreshRevoke) by discriminate.
  split; [exact Hrt|]. split; [eexists; split; reflexivity|].
  exact (rejected_request_changes_nothing (C := refCrypto) cfg0 PostSignin (env_at 5)
           signin_wrong db0 _ Hrt (or_introl (conj eq_refl eq_refl))).
Defined.

Lemma token_routes_leave_accounts_witness :
  token_route PostRefresh = true /\
  users (out_db (handle (C := refCrypto) cfg0 PostRefresh (env_at 5) req0 db0)) = users db0.
Proof.
  split; [reflexivity|].
  exact (token_routes_leave_accounts (C := refCrypto) cfg0 PostRefresh (env_at 5) req0 db0
           eq_refl).
Defined.

Lemma accounts_keep_identity_witness :
  attached db0 update_request /\
  exists u',
    users (out_db (handle (C := refCrypto) cfg0 PutUpdatePassword (env_at 5)
                     update_request db0)) !! 0%nat = Some u' /\
    same_identity alice u'.
Proof.
  split; [reflexivity|].
  destruct (accounts_keep_identity (C := refCrypto) cfg0 PutUpdatePassword (env_at 5)
              update_request db0 eq_refl) as [Hkeep _].
  exact (Hkeep 0%nat alice eq_refl).
Defined.

Lemma updatePassword_then_signin_witness :
  userModel update_request = (0%nat, alice) /\
  users db0 !! 0%nat = Some alice /\
  password alice = Some "$2a$10$pw123456" /\
  let out := updatePassword (C := refCrypto) (env_at 5) update_request db0 in
  exists doc1,
    users (out_db out) !! 0%nat = Some doc1 /\
    out_sent (signin (C := refCrypto) cfg0 (env_at 9)
                (with_userModel 0 doc1 delete_request) (out_db out))
      = sendErrorResponse [] 400 "Password Does not match" false.
Proof.
  split; [reflexivity|]. split; [reflexivity|]. split; [reflexivity|]. intros out.
  pose proof (updatePassword_then_signin (C := refCrypto) cfg0
                (env_at 5) update_request db0 0%nat alice "$2a$10$pw123456"
                eq_refl eq_refl eq_refl) as H.
  cbn in H. destruct H as (doc1 & Hd & _ & _ & _ & _ & Hs).
  exists doc1. split; [exact Hd|].
  exact (Hs (env_at 9) (with_userModel 0 doc1 delete_request) eq_refl).
Defined.

Lemma deleteAccount_only_deactivates_witness :
  userModel delete_request = (0%nat, alice) /\
  users db0 !! 0%nat = Some alice /\
  password alice = Some "$2a$10$pw123456" /\
  let out := deleteAccount (C := refCrypto) (env_at 5) delete_request db0 in
  length (users (out_db out)) = 2%nat /\
  exists doc1,
    users (out_db out) !! 0%nat = Some doc1 /\
    isDeactivated doc1 = true /\ deactivatedAt doc1 = Some 5.
Proof.
  split; [reflexivity|]. split; [reflexivity|]. split; [reflexivity|]. intros out.
  pose proof (deleteAccount_only_deactivates (C := refCrypto)
                (env_at 5) delete_request db0 0%nat alice "$2a$10$pw123456"
                eq_refl eq_refl eq_refl) as H.
  cbn in H. destruct H as (Hlen & (doc1 & Hd & _ & _ & Hde & Hat) & _).
  split; [exact Hlen|]. exists doc1. auto.
Defined.

Lemma confirmEmail_then_resend_refused_witness :
  userModel (with_userModel 2 carol req0) = (2%nat, carol) /\
  users (mkDb [alice; bob; carol] []) !! 2%nat = Some carol /\
  let out := confirmEmail (env_at 5) (with_userModel 2 carol req0)
               (mkDb [alice; bob; carol] []) in
  exists doc1,
    users (out_db out) !! 2%nat = Some doc1 /\ isEmailConfirmed doc1 = true /\
    requestConfirmationEmail (C := refCrypto) (env_at 9) (with_userModel 2 doc1 req0)
        (out_db out)
      = returned (out_db out) (sendErrorResponse [] 400 "Email already confirmed" false) [].
Proof.
  split; [reflexivity|]. split; [reflexivity|]. intros out.
  destruct (confirmEmail_then_resend_refused (C := refCrypto) (env_at 5)
              (with_userModel 2 carol req0) (mkDb [alice; bob; carol] []) 2%nat carol
              eq_refl eq_refl) as (doc1 & Hd & Hc & _ & _ & _ & _ & _ & Hre).
  exists doc1. split; [exact Hd|]. split; [exact Hc|].
  exact (Hre (env_at 9) (with_userModel 2 doc1 req0) eq_refl).
Defined.

Lemma register_then_resend_witness :
  (exists resp,
     out_sent (registerUser (C := refCrypto) cfg0 (env_at 0) signup_A emptyDb) = [resp] /\
     isError resp = false) /\
  exists doc,
    users registered_A !! 0%nat = Some doc /\
    requestConfirmationEmail (C := refCrypto) (env_at 5) (with_userModel 0 doc req0)
        registered_A
      = returned registered_A (sendErrorResponse [] 400 confirmationRecentlySent false) [].
Proof.
  split; [eexists; split; reflexivity|].
  destruct (register_then_resend (C := refCrypto) cfg0 (env_at 0) signup_A emptyDb _
              eq_refl eq_refl) as (doc & Hd & Hre).
  exists doc. split; [exact Hd|].
  exact (Hre (env_at 5) (with_userModel 0 doc req0) eq_refl).
Defined.

Lemma reset_mail_failure_starts_cooldown_witness :
  userModel req0 = (0%nat, alice) /\
  users db0 !! 0%nat = Some alice /\
  isPwResetTokenExpired (now (env_mail_down 0)) alice = true /\
  es_success (emailStatus (env_mail_down 0)) = false /\
  now (env_at 1000) < now (env_mail_down 0) + 30 * 60 * 1000 /\
  let out1 := requestResetPasswordToken (C := refCrypto) (env_mail_down 0) req0 db0 in
  out_sent out1 = sendErrorResponse [] 500 "Email could not be sent" false /\
  exists doc1,
    users (out_db out1) !! 0%nat = Some doc1 /\
    pwResetExpire doc1 = Some 1800000.
Proof.
  assert (Hlt : now (env_at 1000) < now (env_mail_down 0) + 30 * 60 * 1000) by (cbn; lia).
  split; [reflexivity|]. split; [reflexivity|]. split; [reflexivity|].
  split; [reflexivity|]. split; [exact Hlt|]. intros out1.
  destruct (reset_mail_failure_starts_cooldown (C := refCrypto) (env_mail_down 0)
              (env_at 1000) req0 req0 db0 0%nat alice eq_refl eq_refl eq_refl eq_refl Hlt)
    as (Hsent & doc1 & Hd & He & _).
  split; [exact Hsent|]. exists doc1. split; [exact Hd|exact He].
Defined.

Lemma reset_reissue_after_expiry_witness :
  userModel (with_userModel 0 alice_pending req0) = (0%nat, alice_pending) /\
  users db_pending !! 0%nat = Some alice_pending /\
  pwResetExpire alice_pending = Some (0 + 30 * 60 * 1000) /\
  0 + 30 * 60 * 1000 <= now (env_at 1800000) /\
  exists raw doc2,
    out_mails (requestResetPasswordToken (C := refCrypto) (env_at 1800000)
                 (with_userModel 0 alice_pending req0) db_pending)
      = [mkMail PasswordResetMail "a@x.com" (Some raw)] /\
    pwResetExpire doc2 = Some 3600000.
Proof.
  assert (Hle : 0 + 30 * 60 * 1000 <= now (env_at 1800000)) by (cbn; lia).
  split; [reflexivity|]. split; [reflexivity|]. split; [reflexivity|].
  split; [exact Hle|].
  destruct (reset_reissue_after_expiry (C := refCrypto) (env_at 1800000)
              (with_userModel 0 alice_pending req0) db_pending 0%nat alice_pending 0
              eq_refl eq_refl eq_refl Hle) as (raw & doc2 & Hm & _ & _ & He & _).
  exists raw, doc2. split; [exact Hm|exact He].
Defined.

Lemma resetPassword_then_signin_and_reissue_witness :
  userModel reset_request = (0%nat, alice) /\
  users db0 !! 0%nat = Some alice /\
  b_password (body reset_request) = b_confirmPassword (body reset_request) /\
  let out := resetPasswordFromToken (C := refCrypto) (env_at 5) reset_request db0 in
  exists doc1,
    users (out_db out) !! 0%nat = Some doc1 /\
    out_sent (signin (C := refCrypto) cfg0 (env_at 9)
                (with_userModel 0 doc1 delete_request) (out_db out))
      = sendErrorResponse [] 400 "Password Does not match" false /\
    exists raw,
      out_mails (requestResetPasswordToken (C := refCrypto) (env_at 6)
                   (with_userModel 0 doc1 req0) (out_db out))
        = [mkMail PasswordResetMail "a@x.com" (Some raw)].
Proof.
  split; [reflexivity|]. split; [reflexivity|]. split; [reflexivity|]. intros out.
  destruct (resetPassword_then_signin_and_reissue (C := refCrypto)
              cfg0 (env_at 5) reset_request db0 0%nat alice eq_refl eq_refl eq_refl)
    as (doc1 & Hd & Hs & Hr).
  exists doc1. split; [exact Hd|]. split.
  - exact (Hs (env_at 9) (with_userModel 0 doc1 delete_request) eq_refl).
  - destruct (Hr (env_at 6) (with_userModel 0 doc1 req0) eq_refl) as (raw & doc2 & Hmail & _).
    exists raw. exact Hmail.
Defined.

Lemma register_reply_matches_account_witness :
  (exists resp,
     out_sent (registerUser (C := refCrypto) cfg0 (env_mail_down 0) signup_A emptyDb)
       = [resp] /\
     isError resp = false /\ statusCode resp = 201 /\ emailSuccess resp = Some false) /\
  exists doc raw,
    users (out_db (registerUser (C := refCrypto) cfg0 (env_mail_down 0) signup_A emptyDb))
      !! 0%nat = Some doc /\
    out_mails (registerUser (C := refCrypto) cfg0 (env_mail_down 0) signup_A emptyDb)
      = [mkMail ConfirmationMail "a@x.com" (Some raw)] /\
    confirmEmailToken doc = Some (sha256_hex (Crypto := refCrypto) raw).
Proof.
  split; [eexists; repeat split; reflexivity|].
  destruct (register_reply_matches_account (C := refCrypto) cfg0 (env_mail_down 0)
              signup_A emptyDb _ eq_refl eq_refl) as (doc & raw & Hd & Hm & Hc & _).
  exists doc, raw. split; [exact Hd|]. split; [exact Hm|exact Hc].
Defined.

Lemma getAccount_reports_token_claims_witness :
  out_sent (registerUser (C := refCrypto) cfg0 (env_at 0) signup_A emptyDb)
    = sendSuccessResponse [] 201 "Sign up successful" (Some jwtA)
        (Some (emailStatus (env_at 0))) (CookieSet 0) /\
  users registered_A !! 0%nat = Some docA /\
  exists doc2,
    users (out_db (confirmEmail (env_at 5) (with_userModel 0 docA req0) registered_A))
      !! 0%nat = Some doc2 /\
    isEmailConfirmed doc2 = true /\
    getAccount (with_user jwtA (with_userModel 0 doc2 req0))
      = mkAccountInfo 200 "User Found" "A" "a@x.com" RoleAdmin false false.
Proof.
  split; [reflexivity|]. split; [reflexivity|].
  destruct (getAccount_reports_token_claims (C := refCrypto) cfg0 (env_at 0) (env_at 5)
              signup_A (with_userModel 0 docA req0) req0 emptyDb _ jwtA docA
              eq_refl eq_refl eq_refl eq_refl eq_refl) as (doc2 & Hd & Hc & _).
  destruct (getAccount_reports_token_claims (C := refCrypto) cfg0 (env_at 0) (env_at 5)
              signup_A (with_userModel 0 docA req0)
              (with_user jwtA (with_userModel 0 doc2 req0)) emptyDb _ jwtA docA
              eq_refl eq_refl eq_refl eq_refl eq_refl) as (doc2' & Hd' & _ & Hacc).
  assert (doc2' = doc2) by congruence. subst doc2'.
  exists doc2. split; [exact Hd|]. split; [exact Hc|].
  exact (Hacc eq_refl eq_refl).
Defined.

Lemma revoke_by_stranger_goes_through_witness :
  getRftById db0 (rtid bob_revokes_alice)
    = Some (mkRefreshToken 0 0 1000 false None "10.0.0.1" None) /\
  User_findById db0 0 = Some alice /\
  uid alice <> jwt_uid (req_user bob_revokes_alice) /\
  revoked_in (out_db (revokeRefreshToken (env_at 5) bob_revokes_alice db0)) 0.
Proof.
  assert (Hne : uid alice <> jwt_uid (req_user bob_revokes_alice)) by (cbv; discriminate).
  split; [reflexivity|]. split; [reflexivity|]. split; [exact Hne|].
  destruct (revoke_by_stranger_goes_through (env_at 5) bob_revokes_alice db0 _ alice
              eq_refl eq_refl Hne eq_refl) as (_ & _ & Hr).
  eexists. split; [exact Hr|reflexivity].
Defined.

Lemma revoke_by_owner_writes_one_record_witness :
  getRftById db0 (rtid req0) = Some (mkRefreshToken 0 0 1000 false None "10.0.0.1" None) /\
  User_findById db0 0 = Some alice /\
  uid alice = jwt_uid (req_user req0) /\
  let out := revokeRefreshToken (env_at 5) req0 db0 in
  users (out_db out) = users db0 /\ revoked_in (out_db out) 0.
Proof.
  split; [reflexivity|]. split; [reflexivity|]. split; [reflexivity|]. intros out.
  destruct (revoke_by_owner_writes_one_record (env_at 5) req0 db0 _ alice
              eq_refl eq_refl eq_refl eq_refl) as (_ & _ & Hu & _ & Hr & _).
  split; [exact Hu|]. eexists. split; [exact Hr|reflexivity].
Defined.
